(** * medstock-wise: demand estimator, cost optimizer, alert thresholds and
      the three edge-function handlers

    Shallow embedding of
      - supabase/functions/run-predictions/index.ts
      - supabase/functions/calculate-cost-optimization/index.ts
      - supabase/functions/seed-sample-data/index.ts

    Numbers.  Every quantity of the program is a JavaScript [number].  The
    embedding keeps the three special values of IEEE-754 that the program
    can produce by dividing by zero ([NaN], [+Infinity], [-Infinity]) and
    idealises a finite double as the real number it denotes: rounding,
    overflow of finite values and the sign of zero are not modelled.  The
    inventory columns are non-negative integers and a non-negative decimal,
    so no negative zero enters the formulas.

    Rounding.  The comparisons, signs and special values the handlers
    decide on are the same with and without rounding; a [Math.ceil] of a
    computed quantity is not: with unit_cost 8.03 and usage 55 the economic
    order quantity is 1000 on reals and 1000.0000000000001 on doubles, so
    the runtime stores 1001.  calculate-cost-optimization is therefore
    embedded a second time, in [Binary64], on IEEE-754 doubles with the
    correctly rounded operations of the runtime, and the values of the rows
    it persists and returns are stated on that embedding. *)

From Stdlib Require Import Reals Lra Lia ZArith List String Bool Zfloor.
From Stdlib Require Import DecimalString.
From Stdlib Require PrimFloat FloatOps SpecFloat.

Set Warnings "-inexact-float".
Import ListNotations.

Open Scope R_scope.

(** ** JavaScript numbers *)

Module JS.

Inductive number : Type :=
| NaN
| PInf
| NInf
| Fin (r : R).

Definition Rltb (a b : R) : bool := if Rlt_dec a b then true else false.
Definition Rleb (a b : R) : bool := if Rle_dec a b then true else false.
Definition Reqb (a b : R) : bool := if Req_dec_T a b then true else false.

(** [+Infinity] when [positive], [-Infinity] otherwise. *)
Definition inf (positive : bool) : number := if positive then PInf else NInf.

Definition neg (x : number) : number :=
  match x with
  | NaN => NaN
  | PInf => NInf
  | NInf => PInf
  | Fin r => Fin (- r)
  end.

(** [x + y] *)
Definition add (x y : number) : number :=
  match x, y with
  | NaN, _ | _, NaN => NaN
  | PInf, NInf | NInf, PInf => NaN
  | PInf, _ | _, PInf => PInf
  | NInf, _ | _, NInf => NInf
  | Fin a, Fin b => Fin (a + b)
  end.

(** [x - y] *)
Definition sub (x y : number) : number := add x (neg y).

(** An infinity times a finite [r]: [NaN] for zero, else the sign rule. *)
Definition inf_times (positive : bool) (r : R) : number :=
  if Reqb r 0 then NaN else inf (Bool.eqb positive (Rltb 0 r)).

(** [x * y] *)
Definition mul (x y : number) : number :=
  match x, y with
  | NaN, _ | _, NaN => NaN
  | Fin a, Fin b => Fin (a * b)
  | PInf, Fin r | Fin r, PInf => inf_times true r
  | NInf, Fin r | Fin r, NInf => inf_times false r
  | PInf, PInf | NInf, NInf => PInf
  | PInf, NInf | NInf, PInf => NInf
  end.

(** [x / y]; a zero divisor is the positive zero. *)
Definition div (x y : number) : number :=
  match x, y with
  | NaN, _ | _, NaN => NaN
  | Fin a, Fin b =>
      if Reqb b 0
      then (if Reqb a 0 then NaN else inf (Rltb 0 a))
      else Fin (a / b)
  | Fin _, (PInf | NInf) => Fin 0
  | PInf, Fin b => inf (Rleb 0 b)
  | NInf, Fin b => inf (negb (Rleb 0 b))
  | (PInf | NInf), (PInf | NInf) => NaN
  end.

(** [x < y] and [x <= y]: false as soon as an operand is [NaN]. *)
Definition lt (x y : number) : bool :=
  match x, y with
  | NaN, _ | _, NaN => false
  | Fin a, Fin b => Rltb a b
  | NInf, (PInf | Fin _) => true
  | Fin _, PInf => true
  | _, _ => false
  end.

Definition le (x y : number) : bool :=
  match x, y with
  | NaN, _ | _, NaN => false
  | Fin a, Fin b => Rleb a b
  | NInf, _ => true
  | _, PInf => true
  | _, _ => false
  end.

(** [x >= y] is [y <= x] on numbers. *)
Definition ge (x y : number) : bool := le y x.

(** [Math.max(x, y)] and [Math.min(x, y)] *)
Definition max (x y : number) : number :=
  match x, y with
  | NaN, _ | _, NaN => NaN
  | _, _ => if lt x y then y else x
  end.

Definition min (x y : number) : number :=
  match x, y with
  | NaN, _ | _, NaN => NaN
  | _, _ => if lt y x then y else x
  end.

(** [Math.sqrt(x)] *)
Definition sqrt (x : number) : number :=
  match x with
  | NaN | NInf => NaN
  | PInf => PInf
  | Fin r => if Rltb r 0 then NaN else Fin (R_sqrt.sqrt r)
  end.

(** [Math.ceil(x)] *)
Definition ceil (x : number) : number :=
  match x with
  | Fin r => Fin (IZR (Zceil r))
  | _ => x
  end.

(** Truthiness of a number: [0] and [NaN] are falsy. *)
Definition truthy (x : number) : bool :=
  match x with
  | NaN => false
  | Fin r => negb (Reqb r 0)
  | _ => true
  end.

(** [x || y] on numbers *)
Definition or (x y : number) : number := if truthy x then x else y.

End JS.

Abbreviation number := JS.number.
Abbreviation Fin := JS.Fin.
Abbreviation NaN := JS.NaN.
Abbreviation PInf := JS.PInf.
Abbreviation NInf := JS.NInf.

Declare Scope js_scope.
Delimit Scope js_scope with js.
Infix "+" := JS.add : js_scope.
Infix "-" := JS.sub : js_scope.
Infix "*" := JS.mul : js_scope.
Infix "/" := JS.div : js_scope.
Infix "<?" := JS.lt (at level 70) : js_scope.
Infix "<=?" := JS.le (at level 70) : js_scope.
Infix "||" := JS.or : js_scope.

(** ** Rows of the record store *)

(** A row of [inventory_items], as [select('*')] returns it. *)
Record InventoryItem : Type := {
  id : string;
  item_name : string;
  item_type : string;
  current_stock : number;
  min_required : number;
  max_capacity : number;
  unit_cost : number;
  avg_usage_per_day : number;
  restock_lead_time : number;
  vendor_name : option string
}.

(** ** run-predictions: the demand estimator *)

Record FeatureContributions : Type := {
  fc_avg_usage_per_day : number;
  fc_restock_lead_time : number;
  fc_current_stock : number;
  fc_min_required : number
}.

Record Prediction : Type := {
  estimated_demand : number;
  inventory_shortfall : number;
  replenishment_needs : number;
  feature_contributions : FeatureContributions
}.

Definition predictDemand (item : InventoryItem) : Prediction :=
  let estimated_demand := (avg_usage_per_day item * restock_lead_time item)%js in
  let inventory_shortfall :=
    JS.max (Fin 0) (min_required item - current_stock item)%js in
  let replenishment_needs :=
    JS.max (Fin 0) (estimated_demand - current_stock item)%js in
  let feature_contributions :=
    {| fc_avg_usage_per_day :=
         (avg_usage_per_day item / (estimated_demand || Fin 1) * Fin 0.4)%js;
       fc_restock_lead_time :=
         (restock_lead_time item / (estimated_demand || Fin 1) * Fin 0.3)%js;
       fc_current_stock :=
         (current_stock item / (max_capacity item || Fin 1) * Fin 0.15)%js;
       fc_min_required :=
         (min_required item / (max_capacity item || Fin 1) * Fin 0.15)%js |} in
  {| estimated_demand := estimated_demand;
     inventory_shortfall := inventory_shortfall;
     replenishment_needs := replenishment_needs;
     feature_contributions := feature_contributions |}.

(** ** calculate-cost-optimization: the cost optimizer *)

(** Calculate Economic Order Quantity (EOQ).  On finite arguments this is
    the real square root of the real quotient; [Binary64.calculateEOQ] is
    the same function with each operation rounded. *)
Definition calculateEOQ (annualDemand orderingCost holdingCostPerUnit : number)
  : number :=
  JS.sqrt ((Fin 2 * annualDemand * orderingCost) / holdingCostPerUnit)%js.

(** Calculate Reorder Point (ROP) *)
Definition calculateReorderPoint (dailyDemand leadTime safetyStock : number)
  : number :=
  ((dailyDemand * leadTime) + safetyStock)%js.

(** Calculate Safety Stock; [serviceLevel] defaults to 1.65 when the caller
    leaves it out. *)
Definition calculateSafetyStock (dailyDemand leadTime : number)
  (serviceLevel : option number) : number :=
  let serviceLevel :=
    match serviceLevel with Some z => z | None => Fin 1.65 end in
  let demandStdDev := (dailyDemand * Fin 0.2)%js in
  let leadTimeStdDev := JS.sqrt leadTime in
  (serviceLevel * demandStdDev * leadTimeStdDev)%js.

(** The constants of one pass of the optimization loop, and everything it
    computes before the row is written (index.ts lines 93 to 124). *)
Record Optimization : Type := {
  annualDemand : number;
  orderingCost : number;
  holdingCostRate : number;
  holdingCostPerUnit : number;
  eoq : number;
  safetyStock : number;
  reorderPoint : number;
  optimalOrderQty : number;
  numberOfOrders : number;
  annualOrderingCost : number;
  averageInventory : number;
  annualHoldingCost : number;
  estimatedAnnualCost : number
}.

Definition optimizeItem (item : InventoryItem) : Optimization :=
  let annualDemand := (avg_usage_per_day item * Fin 365)%js in
  let orderingCost := Fin 50 in
  let holdingCostRate := Fin 0.25 in
  let holdingCostPerUnit := (unit_cost item * holdingCostRate)%js in
  let eoq := calculateEOQ annualDemand orderingCost holdingCostPerUnit in
  let safetyStock :=
    calculateSafetyStock (avg_usage_per_day item) (restock_lead_time item) None in
  let reorderPoint :=
    calculateReorderPoint (avg_usage_per_day item) (restock_lead_time item)
      safetyStock in
  let optimalOrderQty := JS.min (JS.ceil eoq) (max_capacity item) in
  let numberOfOrders := (annualDemand / optimalOrderQty)%js in
  let annualOrderingCost := (numberOfOrders * orderingCost)%js in
  let averageInventory := ((optimalOrderQty / Fin 2) + safetyStock)%js in
  let annualHoldingCost := (averageInventory * holdingCostPerUnit)%js in
  let estimatedAnnualCost :=
    (annualOrderingCost + annualHoldingCost
       + (annualDemand * unit_cost item))%js in
  {| annualDemand := annualDemand;
     orderingCost := orderingCost;
     holdingCostRate := holdingCostRate;
     holdingCostPerUnit := holdingCostPerUnit;
     eoq := eoq;
     safetyStock := safetyStock;
     reorderPoint := reorderPoint;
     optimalOrderQty := optimalOrderQty;
     numberOfOrders := numberOfOrders;
     annualOrderingCost := annualOrderingCost;
     averageInventory := averageInventory;
     annualHoldingCost := annualHoldingCost;
     estimatedAnnualCost := estimatedAnnualCost |}.

(** The [parameters] document of a [cost_optimization] row. *)
Record CostParameters : Type := {
  cp_annual_demand : number;
  cp_ordering_cost : number;
  cp_holding_cost_rate : number;
  cp_holding_cost_per_unit : number;
  cp_number_of_orders : number;
  cp_annual_ordering_cost : number;
  cp_annual_holding_cost : number
}.

(** A row of [cost_optimization] as the handler inserts it. *)
Record CostRow : Type := {
  co_item_id : string;
  co_eoq : number;
  co_reorder_point : number;
  co_safety_stock : number;
  co_optimal_order_quantity : number;
  co_estimated_annual_cost : number;
  co_parameters : CostParameters
}.

(** An element of the [optimizations] array of the response. *)
Record OptimizationEntry : Type := {
  oe_item_id : string;
  oe_item_name : string;
  oe_eoq : number;
  oe_reorder_point : number;
  oe_safety_stock : number;
  oe_optimal_order_quantity : number;
  oe_estimated_annual_cost : number;
  oe_current_stock : number;
  oe_should_reorder : bool
}.

Definition costRow (item : InventoryItem) (o : Optimization) : CostRow :=
  {| co_item_id := id item;
     co_eoq := JS.ceil (eoq o);
     co_reorder_point := JS.ceil (reorderPoint o);
     co_safety_stock := JS.ceil (safetyStock o);
     co_optimal_order_quantity := optimalOrderQty o;
     co_estimated_annual_cost := estimatedAnnualCost o;
     co_parameters :=
       {| cp_annual_demand := annualDemand o;
          cp_ordering_cost := orderingCost o;
          cp_holding_cost_rate := holdingCostRate o;
          cp_holding_cost_per_unit := holdingCostPerUnit o;
          cp_number_of_orders := numberOfOrders o;
          cp_annual_ordering_cost := annualOrderingCost o;
          cp_annual_holding_cost := annualHoldingCost o |} |}.

Definition optimizationEntry (item : InventoryItem) (o : Optimization)
  : OptimizationEntry :=
  {| oe_item_id := id item;
     oe_item_name := item_name item;
     oe_eoq := JS.ceil (eoq o);
     oe_reorder_point := JS.ceil (reorderPoint o);
     oe_safety_stock := JS.ceil (safetyStock o);
     oe_optimal_order_quantity := optimalOrderQty o;
     oe_estimated_annual_cost := estimatedAnnualCost o;
     oe_current_stock := current_stock item;
     oe_should_reorder := (current_stock item <=? reorderPoint o)%js |}.

(** ** The record store *)

(** The two shapes of [prediction_history.feature_values]. *)
Inductive FeatureValues : Type :=
| RunFeatureValues (current_stock min_required avg_usage_per_day
                    restock_lead_time : number)
| SeedFeatureValues (avg_usage_per_day restock_lead_time current_stock
                     shortfall replenishment_needs unit_cost : number).

(** The two shapes of [prediction_history.feature_contributions]. *)
Inductive HistoryContributions : Type :=
| RunContributions (fc : FeatureContributions)
| SeedContributions (entries : list (string * number)).

(** The two shapes of [alerts_history.metadata]. *)
Inductive AlertMetadata : Type :=
| RunAlertMetadata (current_stock min_required predicted_demand : number)
| SeedAlertMetadata (current_stock min_required shortfall : number).

Record ModelRow : Type := {
  model_id : string;
  model_version : string;
  model_type : string;
  mae : number;
  rmse : number;
  r2_score : number;
  training_date : string;
  is_active : bool;
  created_at : nat
}.

Record PredictionRow : Type := {
  pr_item_id : string;
  pr_estimated_demand : number;
  pr_replenishment_needs : number;
  pr_inventory_shortfall : number;
  pr_predicted_by : option string
}.

Record HistoryRow : Type := {
  ph_item_id : string;
  ph_model_version_id : string;
  ph_predicted_demand : number;
  ph_confidence_score : number;
  ph_feature_values : FeatureValues;
  ph_feature_contributions : HistoryContributions;
  ph_created_by : option string
}.

Record AlertRow : Type := {
  alert_type : string;
  severity : string;
  title : string;
  message : string;
  alert_item_id : string;
  metadata : AlertMetadata
}.

(** The tables the three handlers touch.  [next_uuid] numbers the rows that
    received a generated key, [clock] stamps [created_at]. *)
Record Store : Type := {
  inventory_items : list InventoryItem;
  model_registry : list ModelRow;
  predictions : list PredictionRow;
  prediction_history : list HistoryRow;
  alerts_history : list AlertRow;
  cost_optimization : list CostRow;
  next_uuid : nat;
  clock : nat
}.

(** ** The world around a handler *)

Record User : Type := { user_id : string }.

(** A thrown value: an [Error] with its message, or anything else. *)
Inductive thrown : Type :=
| ErrorObject (msg : string)
| OtherValue.

(** The store calls of the three handlers, by call site. *)
Inductive DbCall : Type :=
| SelectActiveModel
| SelectItems
| InsertPrediction (item_id : string)
| InsertHistory (item_id : string)
| InsertAlerts
| InsertCostOptimization (item_id : string)
| UpsertInventory
| UpsertModel
| InsertSeedHistory
| UpsertSeedPredictions
| InsertSeedAlerts.

(** What a handler cannot decide by itself: the identity provider, whether
    a store call fails (and with which error value), key generation, the
    random source, the wall clock and number formatting. *)
Record World : Type := {
  getUser : string -> option User;
  db_error : DbCall -> option thrown;
  uuid : nat -> string;
  random : nat -> number;
  now_iso : string;
  toFixed : number -> nat -> string;
  toString : number -> string
}.

Record Request (B : Type) : Type := {
  method : string;
  authorization : option string;
  json : thrown + B
}.
Arguments method {B}.
Arguments authorization {B}.
Arguments json {B}.

Inductive Body : Type :=
| NullBody
| ErrorBody (error : string)
| DemoBody (prediction : Prediction) (model_version : string)
| PredictionsBody (predictions : list (string * Prediction))
    (alerts_generated : nat) (model_version : string)
| OptimizationsBody (optimizations : list OptimizationEntry)
    (total_items : nat)
| SeedBody (message : string) (inventory_items predictions alerts : nat).

Record Response : Type := {
  status : nat;
  body : Body
}.

(** ** A state and exception monad for handler bodies *)

Definition Handler (A : Type) : Type := Store -> (thrown + A) * Store.

Definition ret {A} (a : A) : Handler A := fun st => (inr a, st).

Definition throw {A} (e : thrown) : Handler A := fun st => (inl e, st).

Definition bind {A B} (m : Handler A) (k : A -> Handler B) : Handler B :=
  fun st =>
    match m st with
    | (inl e, st') => (inl e, st')
    | (inr a, st') => k a st'
    end.

Declare Scope handler_scope.
Delimit Scope handler_scope with handler.
Notation "x <- m ;; k" := (bind m (fun x => k))
  (at level 61, m at next level, right associativity) : handler_scope.
Notation "m ;;; k" := (bind m (fun _ => k))
  (at level 61, right associativity) : handler_scope.

(** One call of the store client: [{ data, error }].  A failing call leaves
    the store as it was. *)
Definition db_call {A} (w : World) (c : DbCall) (op : Store -> A * Store)
  : Handler (thrown + A) :=
  fun st =>
    match db_error w c with
    | Some e => (inr (inl e), st)
    | None => let (a, st') := op st in (inr (inr a), st')
    end.

(** [try { ... } catch (error) { ... 500 }] with the handler's message for a
    thrown value that is not an [Error]. *)
Definition catch500 (unknown : string) (m : Handler Response)
  : Store -> Response * Store :=
  fun st =>
    match m st with
    | (inr r, st') => (r, st')
    | (inl (ErrorObject msg), st') =>
        ({| status := 500; body := ErrorBody msg |}, st')
    | (inl OtherValue, st') =>
        ({| status := 500; body := ErrorBody unknown |}, st')
    end.

(** ** Strings *)

Open Scope string_scope.

(** [s.replace(pat, rep)] with a string pattern: the first occurrence. *)
Fixpoint replace_first (pat rep s : string) : string :=
  if String.prefix pat s
  then rep ++ substring (String.length pat)
                (String.length s - String.length pat) s
  else match s with
       | EmptyString => EmptyString
       | String c s' => String c (replace_first pat rep s')
       end.

(** [!authHeader] fails for a present, non-empty header only. *)
Definition present (h : option string) : option string :=
  match h with
  | Some s => if String.eqb s "" then None else Some s
  | None => None
  end.

(** The credential check shared by run-predictions and
    calculate-cost-optimization. *)
Definition authenticate {B} (w : World) (req : Request B) : Handler User :=
  match present (authorization req) with
  | None => throw (ErrorObject "Missing authorization header")
  | Some authHeader =>
      let token := replace_first "Bearer " "" authHeader in
      match getUser w token with
      | None => throw (ErrorObject "Unauthorized")
      | Some user => ret user
      end
  end.

(** [await req.json()] *)
Definition req_json {B} (req : Request B) : Handler B :=
  match json req with
  | inl e => throw e
  | inr b => ret b
  end.

(** ** Store operations *)

Definition tick (st : Store) : nat := S (clock st).

Definition insert_prediction (row : PredictionRow) (st : Store)
  : PredictionRow * Store :=
  (row,
   {| inventory_items := inventory_items st;
      model_registry := model_registry st;
      predictions := predictions st ++ [row];
      prediction_history := prediction_history st;
      alerts_history := alerts_history st;
      cost_optimization := cost_optimization st;
      next_uuid := next_uuid st;
      clock := tick st |}).

Definition insert_history (rows : list HistoryRow) (st : Store)
  : unit * Store :=
  (tt,
   {| inventory_items := inventory_items st;
      model_registry := model_registry st;
      predictions := predictions st;
      prediction_history := prediction_history st ++ rows;
      alerts_history := alerts_history st;
      cost_optimization := cost_optimization st;
      next_uuid := next_uuid st;
      clock := tick st |}).

Definition insert_alerts (rows : list AlertRow) (st : Store) : unit * Store :=
  (tt,
   {| inventory_items := inventory_items st;
      model_registry := model_registry st;
      predictions := predictions st;
      prediction_history := prediction_history st;
      alerts_history := alerts_history st ++ rows;
      cost_optimization := cost_optimization st;
      next_uuid := next_uuid st;
      clock := tick st |}).

Definition insert_cost_optimization (row : CostRow) (st : Store)
  : unit * Store :=
  (tt,
   {| inventory_items := inventory_items st;
      model_registry := model_registry st;
      predictions := predictions st;
      prediction_history := prediction_history st;
      alerts_history := alerts_history st;
      cost_optimization := cost_optimization st ++ [row];
      next_uuid := next_uuid st;
      clock := tick st |}).

(** The most recently created row. *)
Definition newest (rows : list ModelRow) : option ModelRow :=
  fold_left
    (fun best r =>
       match best with
       | None => Some r
       | Some b => if Nat.ltb (created_at b) (created_at r)
                   then Some r else Some b
       end)
    rows None.

(** [from('model_registry').select('*').eq('is_active', true)
      .order('created_at', { ascending: false }).limit(1)] *)
Definition select_active_model (st : Store) : list ModelRow * Store :=
  (match newest (filter is_active (model_registry st)) with
   | Some m => [m]
   | None => []
   end, st).

(** [from('inventory_items').select('*')], narrowed to one key when
    [!run_all && item_id]. *)
Definition select_items (run_all : bool) (item_id : option string)
  (st : Store) : list InventoryItem * Store :=
  (match negb run_all, present item_id with
   | true, Some i => filter (fun it => String.eqb (id it) i) (inventory_items st)
   | _, _ => inventory_items st
   end, st).

(** ** run-predictions: the handler *)

Record SinglePrediction : Type := {
  sp_item_name : string;
  sp_item_type : string;
  sp_current_stock : number;
  sp_min_required : number;
  sp_max_capacity : number;
  sp_avg_usage_per_day : number;
  sp_restock_lead_time : number;
  sp_unit_cost : number;
  sp_vendor_name : option string
}.

Record PredictionInput : Type := {
  pi_item_id : option string;
  pi_run_all : bool;
  single_prediction : option SinglePrediction
}.

(** [{ id: 'demo', ...single_prediction } as InventoryItem] *)
Definition demo_item (sp : SinglePrediction) : InventoryItem :=
  {| id := "demo";
     item_name := sp_item_name sp;
     item_type := sp_item_type sp;
     current_stock := sp_current_stock sp;
     min_required := sp_min_required sp;
     max_capacity := sp_max_capacity sp;
     unit_cost := sp_unit_cost sp;
     avg_usage_per_day := sp_avg_usage_per_day sp;
     restock_lead_time := sp_restock_lead_time sp;
     vendor_name := sp_vendor_name sp |}.

Definition stockPercentage (item : InventoryItem) : number :=
  ((current_stock item / min_required item) * Fin 100)%js.

(** Generate alerts based on thresholds (index.ts lines 180 to 208): the
    alert pushed for one item, if any. *)
Definition generateAlert (w : World) (item : InventoryItem)
  (prediction : Prediction) : option AlertRow :=
  let stockPercentage := stockPercentage item in
  if (stockPercentage <? Fin 10)%js then
    Some {| alert_type := "critical_stock";
            severity := "critical";
            title := "Critical Stock Alert: " ++ item_name item;
            message := "Item is at " ++ toFixed w stockPercentage 1
                       ++ "% of minimum required. Immediate action needed.";
            alert_item_id := id item;
            metadata := RunAlertMetadata (current_stock item)
                          (min_required item) (estimated_demand prediction) |}
  else if (stockPercentage <? Fin 20)%js then
    Some {| alert_type := "low_stock";
            severity := "warning";
            title := "Low Stock Warning: " ++ item_name item;
            message := "Item is at " ++ toFixed w stockPercentage 1
                       ++ "% of minimum required. Consider restocking soon.";
            alert_item_id := id item;
            metadata := RunAlertMetadata (current_stock item)
                          (min_required item) (estimated_demand prediction) |}
  else None.

Definition push {A} (l : list A) (o : option A) : list A :=
  match o with
  | Some a => l ++ [a]
  | None => l
  end.

(** [for (const item of items) { ... }] of run-predictions. *)
Fixpoint predict_items (w : World) (user : User) (activeModel : ModelRow)
  (items : list InventoryItem)
  (predictions : list (string * Prediction)) (alerts : list AlertRow)
  : Handler (list (string * Prediction) * list AlertRow) :=
  match items with
  | [] => ret (predictions, alerts)
  | item :: items =>
      let prediction := predictDemand item in
      (stored <- db_call w (InsertPrediction (id item))
         (insert_prediction
            {| pr_item_id := id item;
               pr_estimated_demand := estimated_demand prediction;
               pr_replenishment_needs := replenishment_needs prediction;
               pr_inventory_shortfall := inventory_shortfall prediction;
               pr_predicted_by := Some (user_id user) |}) ;;
       match stored with
       | inr _ =>
           db_call w (InsertHistory (id item))
             (insert_history
                [{| ph_item_id := id item;
                    ph_model_version_id := model_id activeModel;
                    ph_predicted_demand := estimated_demand prediction;
                    ph_confidence_score := Fin 0.85;
                    ph_feature_values :=
                      RunFeatureValues (current_stock item) (min_required item)
                        (avg_usage_per_day item) (restock_lead_time item);
                    ph_feature_contributions :=
                      RunContributions (feature_contributions prediction);
                    ph_created_by := Some (user_id user) |}]) ;;;
           predict_items w user activeModel items
             (predictions ++ [(id item, prediction)])
             (push alerts (generateAlert w item prediction))
       | inl _ => predict_items w user activeModel items predictions alerts
       end)%handler
  end.

Definition run_predictions (w : World) (req : Request PredictionInput)
  : Store -> Response * Store :=
  if String.eqb (method req) "OPTIONS"
  then fun st => ({| status := 200; body := NullBody |}, st)
  else
    catch500 "Unknown error occurred"
      (user <- authenticate w req ;;
       input <- req_json req ;;
       activeModels <- db_call w SelectActiveModel select_active_model ;;
       match activeModels with
       | inl _ | inr [] => throw (ErrorObject "No active model found")
       | inr (activeModel :: _) =>
           match single_prediction input with
           | Some sp =>
               let prediction := predictDemand (demo_item sp) in
               ret {| status := 200;
                      body := DemoBody prediction (model_version activeModel) |}
           | None =>
               items <- db_call w SelectItems
                          (select_items (pi_run_all input) (pi_item_id input)) ;;
               match items with
               | inl _ | inr [] => throw (ErrorObject "No items found")
               | inr items =>
                   out <- predict_items w user activeModel items [] [] ;;
                   let (predictions, alerts) := out in
                   (if Nat.ltb 0 (List.length alerts)
                    then db_call w InsertAlerts (insert_alerts alerts) ;;; ret tt
                    else ret tt) ;;;
                   ret {| status := 200;
                          body := PredictionsBody predictions
                                    (List.length alerts)
                                    (model_version activeModel) |}
               end
           end
       end)%handler.

(** ** calculate-cost-optimization: the handler *)

Record EOQInput : Type := {
  eoq_item_id : option string;
  eoq_run_all : bool
}.

(** [for (const item of items) { ... }] of calculate-cost-optimization. *)
Fixpoint optimize_items (w : World) (items : list InventoryItem)
  (optimizations : list OptimizationEntry)
  : Handler (list OptimizationEntry) :=
  match items with
  | [] => ret optimizations
  | item :: items =>
      let o := optimizeItem item in
      (inserted <- db_call w (InsertCostOptimization (id item))
         (insert_cost_optimization (costRow item o)) ;;
       match inserted with
       | inr _ => optimize_items w items
                    (optimizations ++ [optimizationEntry item o])
       | inl _ => optimize_items w items optimizations
       end)%handler
  end.

Definition calculate_cost_optimization (w : World) (req : Request EOQInput)
  : Store -> Response * Store :=
  if String.eqb (method req) "OPTIONS"
  then fun st => ({| status := 200; body := NullBody |}, st)
  else
    catch500 "Unknown error occurred"
      (user <- authenticate w req ;;
       input <- req_json req ;;
       items <- db_call w SelectItems
                  (select_items (eoq_run_all input) (eoq_item_id input)) ;;
       match items with
       | inl _ | inr [] => throw (ErrorObject "No items found")
       | inr items =>
           optimizations <- optimize_items w items [] ;;
           ret {| status := 200;
                  body := OptimizationsBody optimizations
                            (List.length optimizations) |}
       end)%handler.

(** ** seed-sample-data: the handler *)

(** An element of the sample catalog: an inventory row without its key. *)
Record SeedItem : Type := {
  si_item_name : string;
  si_item_type : string;
  si_current_stock : number;
  si_min_required : number;
  si_max_capacity : number;
  si_unit_cost : number;
  si_avg_usage_per_day : number;
  si_restock_lead_time : number;
  si_vendor_name : option string
}.

Definition inventoryItems : list SeedItem :=
  [
    {| si_item_name := "Ventilator"; si_item_type := "Equipment";
       si_current_stock := Fin 2487; si_min_required := Fin 656;
       si_max_capacity := Fin 3556; si_unit_cost := Fin 5832.29;
       si_avg_usage_per_day := Fin 55; si_restock_lead_time := Fin 12;
       si_vendor_name := Some "MedSupply Inc" |};
    {| si_item_name := "Surgical Mask"; si_item_type := "PPE";
       si_current_stock := Fin 2371; si_min_required := Fin 384;
       si_max_capacity := Fin 5562; si_unit_cost := Fin 16062.98;
       si_avg_usage_per_day := Fin 470; si_restock_lead_time := Fin 6;
       si_vendor_name := Some "HealthCare Supplies" |};
    {| si_item_name := "IV Drip"; si_item_type := "Medical Supplies";
       si_current_stock := Fin 2410; si_min_required := Fin 338;
       si_max_capacity := Fin 1013; si_unit_cost := Fin 15426.53;
       si_avg_usage_per_day := Fin 158; si_restock_lead_time := Fin 12;
       si_vendor_name := Some "PharmaTech" |};
    {| si_item_name := "Surgical Gloves"; si_item_type := "PPE";
       si_current_stock := Fin 1542; si_min_required := Fin 264;
       si_max_capacity := Fin 1018; si_unit_cost := Fin 4467.55;
       si_avg_usage_per_day := Fin 108; si_restock_lead_time := Fin 17;
       si_vendor_name := Some "MedSupply Inc" |};
    {| si_item_name := "Syringes"; si_item_type := "Medical Supplies";
       si_current_stock := Fin 2038; si_min_required := Fin 438;
       si_max_capacity := Fin 1131; si_unit_cost := Fin 744.10;
       si_avg_usage_per_day := Fin 207; si_restock_lead_time := Fin 15;
       si_vendor_name := Some "HealthCare Supplies" |};
    {| si_item_name := "Bandages"; si_item_type := "Medical Supplies";
       si_current_stock := Fin 1850; si_min_required := Fin 500;
       si_max_capacity := Fin 2500; si_unit_cost := Fin 125.50;
       si_avg_usage_per_day := Fin 95; si_restock_lead_time := Fin 10;
       si_vendor_name := Some "PharmaTech" |};
    {| si_item_name := "X-Ray Film"; si_item_type := "Equipment";
       si_current_stock := Fin 320; si_min_required := Fin 150;
       si_max_capacity := Fin 800; si_unit_cost := Fin 2350.00;
       si_avg_usage_per_day := Fin 12; si_restock_lead_time := Fin 14;
       si_vendor_name := Some "MedSupply Inc" |};
    {| si_item_name := "Oxygen Tanks"; si_item_type := "Equipment";
       si_current_stock := Fin 180; si_min_required := Fin 200;
       si_max_capacity := Fin 500; si_unit_cost := Fin 8500.00;
       si_avg_usage_per_day := Fin 8; si_restock_lead_time := Fin 20;
       si_vendor_name := Some "PharmaTech" |}
  ].

(** Update the first row that conflicts, or append the fresh row; the row as
    stored is returned with the table. *)
Fixpoint upsert_row {A} (conflicts : A -> bool) (update : A -> A) (fresh : A)
  (table : list A) : list A * A :=
  match table with
  | [] => ([fresh], fresh)
  | r :: table' =>
      if conflicts r then (update r :: table', update r)
      else let (t, x) := upsert_row conflicts update fresh table' in (r :: t, x)
  end.

Definition with_key (k : string) (r : SeedItem) : InventoryItem :=
  {| id := k;
     item_name := si_item_name r;
     item_type := si_item_type r;
     current_stock := si_current_stock r;
     min_required := si_min_required r;
     max_capacity := si_max_capacity r;
     unit_cost := si_unit_cost r;
     avg_usage_per_day := si_avg_usage_per_day r;
     restock_lead_time := si_restock_lead_time r;
     vendor_name := si_vendor_name r |}.

(** [upsert(rows, { onConflict: 'item_name' }).select()] on
    [inventory_items]: the table, the next key and the rows as stored. *)
Fixpoint upsert_inventory_rows (w : World) (rows : list SeedItem)
  (table : list InventoryItem) (next : nat)
  : list InventoryItem * nat * list InventoryItem :=
  match rows with
  | [] => (table, next, [])
  | r :: rows' =>
      let conflicts x := String.eqb (item_name x) (si_item_name r) in
      let '(table1, stored) :=
        upsert_row conflicts (fun x => with_key (id x) r)
          (with_key (uuid w next) r) table in
      let next1 := if existsb conflicts table then next else S next in
      let '(table2, next2, out) := upsert_inventory_rows w rows' table1 next1 in
      (table2, next2, stored :: out)
  end.

Definition upsert_inventory (w : World) (rows : list SeedItem) (st : Store)
  : list InventoryItem * Store :=
  let '(table, next, stored) :=
    upsert_inventory_rows w rows (inventory_items st) (next_uuid st) in
  (stored,
   {| inventory_items := table;
      model_registry := model_registry st;
      predictions := predictions st;
      prediction_history := prediction_history st;
      alerts_history := alerts_history st;
      cost_optimization := cost_optimization st;
      next_uuid := next;
      clock := tick st |}).

(** The registry row of the seed, keyed by [k] and stamped [t]. *)
Definition seed_model (w : World) (k : string) (t : nat) : ModelRow :=
  {| model_id := k;
     model_version := "v1.0.0";
     model_type := "GradientBoosting";
     mae := Fin 157.17;
     rmse := Fin 215.72;
     r2_score := Fin 0.92;
     training_date := now_iso w;
     is_active := true;
     created_at := t |}.

(** [upsert({...}, { onConflict: 'model_version' }).select().single()] *)
Definition upsert_model (w : World) (st : Store) : ModelRow * Store :=
  let conflicts x := String.eqb (model_version x) "v1.0.0" in
  let '(table, stored) :=
    upsert_row conflicts
      (fun x => seed_model w (model_id x) (created_at x))
      (seed_model w (uuid w (next_uuid st)) (clock st))
      (model_registry st) in
  (stored,
   {| inventory_items := inventory_items st;
      model_registry := table;
      predictions := predictions st;
      prediction_history := prediction_history st;
      alerts_history := alerts_history st;
      cost_optimization := cost_optimization st;
      next_uuid := if existsb conflicts (model_registry st)
                   then next_uuid st else S (next_uuid st);
      clock := tick st |}).

(** [upsert(rows, { onConflict: 'item_id' })] on [predictions]. *)
Fixpoint upsert_prediction_rows (rows : list PredictionRow)
  (table : list PredictionRow) : list PredictionRow :=
  match rows with
  | [] => table
  | r :: rows' =>
      upsert_prediction_rows rows'
        (fst (upsert_row
                (fun x => String.eqb (pr_item_id x) (pr_item_id r))
                (fun x =>
                   {| pr_item_id := pr_item_id x;
                      pr_estimated_demand := pr_estimated_demand r;
                      pr_replenishment_needs := pr_replenishment_needs r;
                      pr_inventory_shortfall := pr_inventory_shortfall r;
                      pr_predicted_by := pr_predicted_by x |})
                r table))
  end.

Definition upsert_predictions (rows : list PredictionRow) (st : Store)
  : unit * Store :=
  (tt,
   {| inventory_items := inventory_items st;
      model_registry := model_registry st;
      predictions := upsert_prediction_rows rows (predictions st);
      prediction_history := prediction_history st;
      alerts_history := alerts_history st;
      cost_optimization := cost_optimization st;
      next_uuid := next_uuid st;
      clock := tick st |}).

(** The callback of [insertedItems.map] that builds the
    [prediction_history] rows (index.ts lines 168 to 192); [n] counts the
    calls to [Math.random]. *)
Definition seed_history_row (w : World) (modelData : ModelRow) (n : nat)
  (item : InventoryItem) : HistoryRow :=
  let estimatedDemand := (avg_usage_per_day item * restock_lead_time item)%js in
  let inventoryShortfall :=
    JS.max (Fin 0) (min_required item - current_stock item)%js in
  let replenishmentNeeds :=
    JS.max (Fin 0) (max_capacity item - current_stock item)%js in
  {| ph_item_id := id item;
     ph_model_version_id := model_id modelData;
     ph_predicted_demand := estimatedDemand;
     ph_confidence_score := (Fin 0.85 + random w n * Fin 0.1)%js;
     ph_feature_values :=
       SeedFeatureValues (avg_usage_per_day item) (restock_lead_time item)
         (current_stock item) inventoryShortfall replenishmentNeeds
         (unit_cost item);
     ph_feature_contributions :=
       SeedContributions
         [("Avg_Usage_Per_Day", Fin 45); ("Restock_Lead_Time", Fin 30);
          ("Current_Stock", Fin 15)];
     ph_created_by := None |}.

(** The callback that builds the dashboard [predictions] rows
    (index.ts lines 206 to 217). *)
Definition seed_dashboard_row (item : InventoryItem) : PredictionRow :=
  let estimatedDemand := (avg_usage_per_day item * restock_lead_time item)%js in
  let inventoryShortfall :=
    JS.max (Fin 0) (min_required item - current_stock item)%js in
  let replenishmentNeeds :=
    JS.max (Fin 0) (max_capacity item - current_stock item)%js in
  {| pr_item_id := id item;
     pr_estimated_demand := estimatedDemand;
     pr_replenishment_needs := replenishmentNeeds;
     pr_inventory_shortfall := inventoryShortfall;
     pr_predicted_by := None |}.

(** The callback that builds the sample alerts (index.ts lines 235 to 246). *)
Definition seed_alert (w : World) (item : InventoryItem) : AlertRow :=
  {| alert_type := "low_stock";
     severity := if (current_stock item <? min_required item * Fin 0.5)%js
                 then "critical" else "warning";
     title := "Low Stock Alert: " ++ item_name item;
     message := item_name item ++ " stock (" ++ toString w (current_stock item)
                ++ ") is below minimum required ("
                ++ toString w (min_required item) ++ ")";
     alert_item_id := id item;
     metadata := SeedAlertMetadata (current_stock item) (min_required item)
                   (min_required item - current_stock item)%js |}.

(** [l.map((x, i) => f(i, x))] *)
Fixpoint mapi {A B} (f : nat -> A -> B) (n : nat) (l : list A) : list B :=
  match l with
  | [] => []
  | x :: l' => f n x :: mapi f (S n) l'
  end.

(** Rethrow the error of a failed store call. *)
Definition orThrow {A} (m : Handler (thrown + A)) : Handler A :=
  (r <- m ;;
   match r with
   | inl e => throw e
   | inr a => ret a
   end)%handler.

(** The handler reads the method of the request and nothing else of it: no
    header and no body.  Both upserts return their rows on success, so the
    test [insertedItems && modelData] passes whenever they are reached. *)
Definition seed_sample_data {B} (w : World) (req : Request B)
  : Store -> Response * Store :=
  if String.eqb (method req) "OPTIONS"
  then fun st => ({| status := 200; body := NullBody |}, st)
  else
    catch500 "Unknown error"
      (insertedItems <- orThrow (db_call w UpsertInventory
                                   (upsert_inventory w inventoryItems)) ;;
       modelData <- orThrow (db_call w UpsertModel (upsert_model w)) ;;
       let predictions := mapi (seed_history_row w modelData) 0 insertedItems in
       orThrow (db_call w InsertSeedHistory (insert_history predictions)) ;;;
       let dashboardPredictions := map seed_dashboard_row insertedItems in
       orThrow (db_call w UpsertSeedPredictions
                  (upsert_predictions dashboardPredictions)) ;;;
       let lowStockItems :=
         filter (fun item => (current_stock item <? min_required item)%js)
           insertedItems in
       (if Nat.ltb 0 (List.length lowStockItems)
        then orThrow (db_call w InsertSeedAlerts
                        (insert_alerts (map (seed_alert w) lowStockItems)))
        else ret tt) ;;;
       ret {| status := 200;
              body := SeedBody "Sample data seeded successfully"
                        (List.length insertedItems) (List.length insertedItems)
                        (List.length lowStockItems) |})%handler.

(** ** The cost optimizer on binary64

    calculate-cost-optimization/index.ts once more, with every number an
    IEEE-754 double and every operation the correctly rounded one of the
    runtime.  The optimizer takes [Math.ceil] of a square root, so rounding
    can move a result by a whole unit: this is the embedding on which the
    values of the rows it persists and returns are stated.  The three
    formula functions and [stockPercentage] are also used to run the
    boundary inputs of the other handlers with rounding. *)

Module Binary64.

Import PrimFloat.
Local Open Scope float_scope.

(** [Math.ceil(x)].  A finite non-zero [x] is [m * 2^e] with the sign [s]
    apart: an integer already when [0 <= e]; otherwise the integer part of
    [m * 2^e] is [m] shifted right by [-e], and the ceiling is that integer
    for a negative [x] (with the sign kept, so that [-0.5] gives [-0]) and
    for a whole [x], and the next integer for any other positive [x].
    [NaN], the infinities and the zeros are returned as they are. *)
Definition ceil (x : float) : float :=
  match FloatOps.Prim2SF x with
  | SpecFloat.S754_finite s m e =>
      if (0 <=? e)%Z then x
      else
        let integer_part := Z.shiftr (Zpos m) (- e) in
        let whole := Z.eqb (Z.shiftl integer_part (- e)) (Zpos m) in
        let magnitude :=
          if s then integer_part
          else if whole then integer_part
          else (integer_part + 1)%Z in
        FloatOps.SF2Prim
          match magnitude with
          | Zpos p => SpecFloat.S754_finite s p 0
          | _ => SpecFloat.S754_zero s
          end
  | _ => x
  end.

(** [Math.min(x, y)]: [NaN] as soon as an argument is; [-0] is below [+0]. *)
Definition min (x y : float) : float :=
  if is_nan x || is_nan y then nan
  else if x <? y then x
  else if y <? x then y
  else if get_sign x then x else y.

(** A row of [inventory_items], as [select('*')] returns it. *)
Record InventoryItem : Type := {
  id : string;
  item_name : string;
  item_type : string;
  current_stock : float;
  min_required : float;
  max_capacity : float;
  unit_cost : float;
  avg_usage_per_day : float;
  restock_lead_time : float;
  vendor_name : option string
}.

(** Calculate Economic Order Quantity (EOQ) *)
Definition calculateEOQ (annualDemand orderingCost holdingCostPerUnit : float)
  : float :=
  sqrt ((2 * annualDemand * orderingCost) / holdingCostPerUnit).

(** Calculate Reorder Point (ROP) *)
Definition calculateReorderPoint (dailyDemand leadTime safetyStock : float)
  : float :=
  (dailyDemand * leadTime) + safetyStock.

(** Calculate Safety Stock *)
Definition calculateSafetyStock (dailyDemand leadTime : float)
  (serviceLevel : option float) : float :=
  let serviceLevel := match serviceLevel with Some z => z | None => 1.65 end in
  let demandStdDev := dailyDemand * 0.2 in
  let leadTimeStdDev := sqrt leadTime in
  serviceLevel * demandStdDev * leadTimeStdDev.

(** run-predictions, line 179. *)
Definition stockPercentage (current_stock min_required : float) : float :=
  (current_stock / min_required) * 100.

(** Everything one pass of the loop computes before the row is written
    (index.ts lines 93 to 124). *)
Record Optimization : Type := {
  annualDemand : float;
  orderingCost : float;
  holdingCostRate : float;
  holdingCostPerUnit : float;
  eoq : float;
  safetyStock : float;
  reorderPoint : float;
  optimalOrderQty : float;
  numberOfOrders : float;
  annualOrderingCost : float;
  averageInventory : float;
  annualHoldingCost : float;
  estimatedAnnualCost : float
}.

Definition optimizeItem (item : InventoryItem) : Optimization :=
  let annualDemand := avg_usage_per_day item * 365 in
  let orderingCost := 50 in
  let holdingCostRate := 0.25 in
  let holdingCostPerUnit := unit_cost item * holdingCostRate in
  let eoq := calculateEOQ annualDemand orderingCost holdingCostPerUnit in
  let safetyStock :=
    calculateSafetyStock (avg_usage_per_day item) (restock_lead_time item) None in
  let reorderPoint :=
    calculateReorderPoint (avg_usage_per_day item) (restock_lead_time item)
      safetyStock in
  let optimalOrderQty := min (ceil eoq) (max_capacity item) in
  let numberOfOrders := annualDemand / optimalOrderQty in
  let annualOrderingCost := numberOfOrders * orderingCost in
  let averageInventory := (optimalOrderQty / 2) + safetyStock in
  let annualHoldingCost := averageInventory * holdingCostPerUnit in
  let estimatedAnnualCost :=
    annualOrderingCost + annualHoldingCost + (annualDemand * unit_cost item) in
  {| annualDemand := annualDemand;
     orderingCost := orderingCost;
     holdingCostRate := holdingCostRate;
     holdingCostPerUnit := holdingCostPerUnit;
     eoq := eoq;
     safetyStock := safetyStock;
     reorderPoint := reorderPoint;
     optimalOrderQty := optimalOrderQty;
     numberOfOrders := numberOfOrders;
     annualOrderingCost := annualOrderingCost;
     averageInventory := averageInventory;
     annualHoldingCost := annualHoldingCost;
     estimatedAnnualCost := estimatedAnnualCost |}.

(** The [parameters] document of a [cost_optimization] row. *)
Record CostParameters : Type := {
  cp_annual_demand : float;
  cp_ordering_cost : float;
  cp_holding_cost_rate : float;
  cp_holding_cost_per_unit : float;
  cp_number_of_orders : float;
  cp_annual_ordering_cost : float;
  cp_annual_holding_cost : float
}.

(** A row of [cost_optimization] as the handler inserts it. *)
Record CostRow : Type := {
  co_item_id : string;
  co_eoq : float;
  co_reorder_point : float;
  co_safety_stock : float;
  co_optimal_order_quantity : float;
  co_estimated_annual_cost : float;
  co_parameters : CostParameters
}.

(** An element of the [optimizations] array of the response. *)
Record OptimizationEntry : Type := {
  oe_item_id : string;
  oe_item_name : string;
  oe_eoq : float;
  oe_reorder_point : float;
  oe_safety_stock : float;
  oe_optimal_order_quantity : float;
  oe_estimated_annual_cost : float;
  oe_current_stock : float;
  oe_should_reorder : bool
}.

Definition costRow (item : InventoryItem) (o : Optimization) : CostRow :=
  {| co_item_id := id item;
     co_eoq := ceil (eoq o);
     co_reorder_point := ceil (reorderPoint o);
     co_safety_stock := ceil (safetyStock o);
     co_optimal_order_quantity := optimalOrderQty o;
     co_estimated_annual_cost := estimatedAnnualCost o;
     co_parameters :=
       {| cp_annual_demand := annualDemand o;
          cp_ordering_cost := orderingCost o;
          cp_holding_cost_rate := holdingCostRate o;
          cp_holding_cost_per_unit := holdingCostPerUnit o;
          cp_number_of_orders := numberOfOrders o;
          cp_annual_ordering_cost := annualOrderingCost o;
          cp_annual_holding_cost := annualHoldingCost o |} |}.

Definition optimizationEntry (item : InventoryItem) (o : Optimization)
  : OptimizationEntry :=
  {| oe_item_id := id item;
     oe_item_name := item_name item;
     oe_eoq := ceil (eoq o);
     oe_reorder_point := ceil (reorderPoint o);
     oe_safety_stock := ceil (safetyStock o);
     oe_optimal_order_quantity := optimalOrderQty o;
     oe_estimated_annual_cost := estimatedAnnualCost o;
     oe_current_stock := current_stock item;
     oe_should_reorder := current_stock item <=? reorderPoint o |}.

(** The two tables the handler touches. *)
Record Store : Type := {
  inventory_items : list InventoryItem;
  cost_optimization : list CostRow
}.

Inductive Body : Type :=
| NullBody
| ErrorBody (error : string)
| OptimizationsBody (optimizations : list OptimizationEntry)
    (total_items : nat).

Record Response : Type := {
  status : nat;
  body : Body
}.

(** [from('inventory_items').select('*')], narrowed to one key when
    [!run_all && item_id]. *)
Definition select_items (run_all : bool) (item_id : option string)
  (st : Store) : list InventoryItem :=
  match negb run_all, present item_id with
  | true, Some i => filter (fun it => String.eqb (id it) i) (inventory_items st)
  | _, _ => inventory_items st
  end.

Definition insert_cost_optimization (row : CostRow) (st : Store) : Store :=
  {| inventory_items := inventory_items st;
     cost_optimization := cost_optimization st ++ [row] |}.

(** [for (const item of items) { ... }]: the row is inserted, and the entry
    pushed unless the store reports an error. *)
Fixpoint optimize_items (w : World) (items : list InventoryItem)
  (optimizations : list OptimizationEntry) (st : Store)
  : list OptimizationEntry * Store :=
  match items with
  | [] => (optimizations, st)
  | item :: items =>
      let o := optimizeItem item in
      match db_error w (InsertCostOptimization (id item)) with
      | None =>
          optimize_items w items (optimizations ++ [optimizationEntry item o])
            (insert_cost_optimization (costRow item o) st)
      | Some _ => optimize_items w items optimizations st
      end
  end.

(** The answer of the [catch] block to a thrown value. *)
Definition caught (e : thrown) : Response :=
  {| status := 500;
     body := ErrorBody match e with
                       | ErrorObject msg => msg
                       | OtherValue => "Unknown error occurred"
                       end |}.

(** The handler, with each [throw] answered by the [catch] block at once. *)
Definition calculate_cost_optimization (w : World) (req : Request EOQInput)
  (st : Store) : Response * Store :=
  if String.eqb (method req) "OPTIONS"
  then ({| status := 200; body := NullBody |}, st)
  else
    match present (authorization req) with
    | None => (caught (ErrorObject "Missing authorization header"), st)
    | Some authHeader =>
        let token := replace_first "Bearer " "" authHeader in
        match getUser w token with
        | None => (caught (ErrorObject "Unauthorized"), st)
        | Some user =>
            match json req with
            | inl e => (caught e, st)
            | inr input =>
                match db_error w SelectItems,
                      select_items (eoq_run_all input) (eoq_item_id input) st
                with
                | Some _, _ | None, [] =>
                    (caught (ErrorObject "No items found"), st)
                | None, items =>
                    let (optimizations, st') := optimize_items w items [] st in
                    ({| status := 200;
                        body := OptimizationsBody optimizations
                                  (List.length optimizations) |}, st')
                end
            end
        end
    end.

(** Whether the world lets the row of an item be written. *)
Definition optimization_stored (w : World) (item : InventoryItem) : bool :=
  match db_error w (InsertCostOptimization (id item)) with
  | None => true
  | Some _ => false
  end.

(** An inventory row with the given numeric columns. *)
Definition sample_item (stock required capacity cost usage lead : float)
  : InventoryItem :=
  {| id := "item-1";
     item_name := "Sample";
     item_type := "Equipment";
     current_stock := stock;
     min_required := required;
     max_capacity := capacity;
     unit_cost := cost;
     avg_usage_per_day := usage;
     restock_lead_time := lead;
     vendor_name := None |}.

Definition store_of (items : list InventoryItem) : Store :=
  {| inventory_items := items; cost_optimization := [] |}.

End Binary64.

(** ** Sample inputs *)

(** An inventory row with the given numeric columns. *)
Definition sample_item (stock required capacity cost usage lead : R)
  : InventoryItem :=
  {| id := "item-1";
     item_name := "Sample";
     item_type := "Equipment";
     current_stock := Fin stock;
     min_required := Fin required;
     max_capacity := Fin capacity;
     unit_cost := Fin cost;
     avg_usage_per_day := Fin usage;
     restock_lead_time := Fin lead;
     vendor_name := None |}.

(** The first row of the sample catalog. *)
Definition ventilator : InventoryItem :=
  sample_item 2487 656 3556 5832.29 55 12.

(** A world in which every store call succeeds and the identity provider
    knows one token. *)
Definition sample_world : World :=
  {| getUser := fun token =>
       if String.eqb token "valid-token"
       then Some {| user_id := "user-1" |} else None;
     db_error := fun _ => None;
     uuid := fun n => "uuid-" ++ NilZero.string_of_uint (Nat.to_uint n);
     random := fun _ => Fin 0.5;
     now_iso := "2025-10-07T17:44:22.000Z";
     toFixed := fun _ _ => "(toFixed)";
     toString := fun _ => "(toString)" |}.

(** The user a request's bearer credential resolves to: none when the
    header is missing or empty, or when the identity provider rejects the
    token. *)
Definition credential {B} (w : World) (req : Request B) : option User :=
  match present (authorization req) with
  | None => None
  | Some authHeader => getUser w (replace_first "Bearer " "" authHeader)
  end.

Definition empty_store : Store :=
  {| inventory_items := [];
     model_registry := [];
     predictions := [];
     prediction_history := [];
     alerts_history := [];
     cost_optimization := [];
     next_uuid := 0;
     clock := 0 |}.

(** A store whose registry holds one active model. *)
Definition store_with_model : Store :=
  {| inventory_items := [];
     model_registry := [seed_model sample_world "model-1" 0];
     predictions := [];
     prediction_history := [];
     alerts_history := [];
     cost_optimization := [];
     next_uuid := 0;
     clock := 1 |}.

Definition ventilator_fields : SinglePrediction :=
  {| sp_item_name := "Ventilator";
     sp_item_type := "Equipment";
     sp_current_stock := Fin 2487;
     sp_min_required := Fin 656;
     sp_max_capacity := Fin 3556;
     sp_avg_usage_per_day := Fin 55;
     sp_restock_lead_time := Fin 12;
     sp_unit_cost := Fin 5832.29;
     sp_vendor_name := Some "MedSupply Inc" |}.

(** A demo-mode request, with or without a credential. *)
Definition demo_request (auth : option string) : Request PredictionInput :=
  {| method := "POST";
     authorization := auth;
     json := inr {| pi_item_id := None;
                    pi_run_all := false;
                    single_prediction := Some ventilator_fields |} |}.

(** A request that carries no credential at all. *)
Definition anonymous_request (m : string) : Request unit :=
  {| method := m; authorization := None; json := inr tt |}.

(** ** What the two loops persist *)

(** Whether the world lets the row of an item be written. *)
Definition prediction_stored (w : World) (item : InventoryItem) : bool :=
  match db_error w (InsertPrediction (id item)) with
  | None => true
  | Some _ => false
  end.

Definition optimization_stored (w : World) (item : InventoryItem) : bool :=
  match db_error w (InsertCostOptimization (id item)) with
  | None => true
  | Some _ => false
  end.

Definition option_list {A} (o : option A) : list A :=
  match o with
  | Some a => [a]
  | None => []
  end.

(** The divisor the estimator uses: [d || 1] on a finite [d]. *)
Definition or_one (d : R) : R := if Req_dec_T d 0 then 1 else d.

(** ** Sample stores and requests for batch runs *)

(** An item at 5% of its minimum. *)
Definition scarce_item : InventoryItem := sample_item 10 200 500 3 8 20.

(** A store with one active model and one item. *)
Definition store_with_item : Store :=
  {| inventory_items := [scarce_item];
     model_registry := [seed_model sample_world "model-1" 0];
     predictions := [];
     prediction_history := [];
     alerts_history := [];
     cost_optimization := [];
     next_uuid := 0;
     clock := 1 |}.

Definition run_all_input : PredictionInput :=
  {| pi_item_id := None; pi_run_all := true; single_prediction := None |}.

(** An authenticated [{ run_all: true }] request. *)
Definition batch_request : Request PredictionInput :=
  {| method := "POST";
     authorization := Some "Bearer valid-token";
     json := inr run_all_input |}.

Definition optimize_all_request : Request EOQInput :=
  {| method := "POST";
     authorization := Some "Bearer valid-token";
     json := inr {| eoq_item_id := None; eoq_run_all := true |} |}.

(** [sample_world], except that the store calls [fails] selects are
    rejected. *)
Definition world_rejecting (fails : DbCall -> bool) : World :=
  {| getUser := getUser sample_world;
     db_error := fun c => if fails c then Some OtherValue else None;
     uuid := uuid sample_world;
     random := random sample_world;
     now_iso := now_iso sample_world;
     toFixed := toFixed sample_world;
     toString := toString sample_world |}.

Definition is_InsertPrediction (c : DbCall) : bool :=
  match c with InsertPrediction _ => true | _ => false end.

Definition is_InsertAlerts (c : DbCall) : bool :=
  match c with InsertAlerts => true | _ => false end.

Definition is_InsertHistory (c : DbCall) : bool :=
  match c with InsertHistory _ => true | _ => false end.

Definition is_UpsertModel (c : DbCall) : bool :=
  match c with UpsertModel => true | _ => false end.



(** ** The rows the prediction loop writes *)

(** The row of [predictions] inserted for an item (index.ts lines 147 to
    153). *)
Definition prediction_row (user : User) (item : InventoryItem)
  : PredictionRow :=
  {| pr_item_id := id item;
     pr_estimated_demand := estimated_demand (predictDemand item);
     pr_replenishment_needs := replenishment_needs (predictDemand item);
     pr_inventory_shortfall := inventory_shortfall (predictDemand item);
     pr_predicted_by := Some (user_id user) |}.

(** The row of [prediction_history] inserted for an item (index.ts lines 159
    to 172). *)
Definition history_row (user : User) (activeModel : ModelRow)
  (item : InventoryItem) : HistoryRow :=
  {| ph_item_id := id item;
     ph_model_version_id := model_id activeModel;
     ph_predicted_demand := estimated_demand (predictDemand item);
     ph_confidence_score := Fin 0.85;
     ph_feature_values :=
       RunFeatureValues (current_stock item) (min_required item)
         (avg_usage_per_day item) (restock_lead_time item);
     ph_feature_contributions :=
       RunContributions (feature_contributions (predictDemand item));
     ph_created_by := Some (user_id user) |}.

(** Whether the world lets the history row of an item be written. *)
Definition history_stored (w : World) (item : InventoryItem) : bool :=
  match db_error w (InsertHistory (id item)) with
  | None => true
  | Some _ => false
  end.

(** ** The pages that read the tables *)

(** Inventory page, [getStockStatus]: the badge shown for a row. *)
Inductive StockStatus : Type :=
| Critical
| LowStock
| Normal.

Definition getStockStatus (item : InventoryItem) : StockStatus :=
  if (current_stock item <? min_required item * Fin 0.5)%js then Critical
  else if (current_stock item <? min_required item)%js then LowStock
  else Normal.

(** Dashboard page, [fetchStats]: the four figures of the stat cards.
    [parseFloat] is the runtime's parser, [result] the outcome of the select
    and [stats] the figures shown so far, kept when the select fails. *)
Record InventoryStats : Type := {
  totalItems : nat;
  lowStockItems : nat;
  totalValue : number;
  criticalItems : nat
}.

Definition fetchStats (w : World) (parseFloat : string -> number)
  (result : thrown + list InventoryItem) (stats : InventoryStats)
  : InventoryStats :=
  match result with
  | inr items =>
      let totalItems := List.length items in
      let lowStockItems :=
        List.length
          (filter (fun item => (current_stock item <? min_required item)%js)
             items) in
      let criticalItems :=
        List.length
          (filter
             (fun item =>
                (current_stock item <? min_required item * Fin 0.5)%js)
             items) in
      let totalValue :=
        fold_left
          (fun sum item =>
             (sum + current_stock item
                    * parseFloat (toString w (unit_cost item)))%js)
          items (Fin 0) in
      {| totalItems := totalItems;
         lowStockItems := lowStockItems;
         totalValue := totalValue;
         criticalItems := criticalItems |}
  | inl _ => stats
  end.

(** Cost page, [fetchOptimizations]: a [cost_optimization] row joined with
    its inventory row, if that row still exists, and the flag the page
    derives.  A missing row makes [current_stock] undefined, and
    [undefined <= x] is false. *)
Record FormattedOptimization : Type := {
  fo_row : CostRow;
  fo_item_name : option string;
  fo_current_stock : option number;
  fo_should_reorder : bool
}.

Definition formatOptimization (opt : CostRow)
  (inventory_items : option InventoryItem) : FormattedOptimization :=
  {| fo_row := opt;
     fo_item_name := option_map item_name inventory_items;
     fo_current_stock := option_map current_stock inventory_items;
     fo_should_reorder :=
       match inventory_items with
       | Some joined => (current_stock joined <=? co_reorder_point opt)%js
       | None => false
       end |}.

(** ** Evaluating the number operations *)

Lemma Rltb_true a b : a < b -> JS.Rltb a b = true.
Proof. unfold JS.Rltb; destruct (Rlt_dec a b); [reflexivity | contradiction]. Qed.

Lemma Rltb_false a b : b <= a -> JS.Rltb a b = false.
Proof. unfold JS.Rltb; destruct (Rlt_dec a b); [lra | reflexivity]. Qed.

Lemma Rleb_true a b : a <= b -> JS.Rleb a b = true.
Proof. unfold JS.Rleb; destruct (Rle_dec a b); [reflexivity | contradiction]. Qed.


Lemma Reqb_true a b : a = b -> JS.Reqb a b = true.
Proof. unfold JS.Reqb; destruct (Req_dec_T a b); [reflexivity | contradiction]. Qed.

Lemma Reqb_false a b : a <> b -> JS.Reqb a b = false.
Proof. unfold JS.Reqb; destruct (Req_dec_T a b); [contradiction | reflexivity]. Qed.

(** Case split on every real comparison left in the goal. *)
Ltac real_cases :=
  repeat match goal with
    | |- context [Rlt_dec ?a ?b] => destruct (Rlt_dec a b)
    | |- context [Rle_dec ?a ?b] => destruct (Rle_dec a b)
    | |- context [Req_dec_T ?a ?b] => destruct (Req_dec_T a b)
    end.

Lemma max0_fin (x : R) : JS.max (Fin 0) (Fin x) = Fin (Rmax 0 x).
Proof.
  unfold JS.max, JS.lt, JS.Rltb, Rmax.
  real_cases; f_equal; lra.
Qed.

Lemma sub_fin (a b : R) : (Fin a - Fin b)%js = Fin (a - b).
Proof. reflexivity. Qed.

Lemma or_one_fin (d : R) : (Fin d || Fin 1)%js = Fin (or_one d).
Proof.
  unfold JS.or, JS.truthy, JS.Reqb, or_one.
  destruct (Req_dec_T d 0); reflexivity.
Qed.

Lemma or_one_nonzero (d : R) : or_one d <> 0.
Proof. unfold or_one; destruct (Req_dec_T d 0); lra. Qed.

Lemma div_fin (a b : R) : b <> 0 -> (Fin a / Fin b)%js = Fin (a / b).
Proof. intros Hb; unfold JS.div; now rewrite (Reqb_false _ _ Hb). Qed.

(** ** The demand estimator *)

(** C1. On an item with finite fields, predictDemand returns
    estimated_demand = avg_usage_per_day * restock_lead_time,
    inventory_shortfall = max(0, min_required - current_stock),
    replenishment_needs = max(0, estimated_demand - current_stock) and the
    four contributions 0.4, 0.3, 0.15, 0.15 scaled by
    avg_usage_per_day/estimated_demand, restock_lead_time/estimated_demand,
    current_stock/max_capacity and min_required/max_capacity, a zero
    denominator being replaced by 1; and the item with usage 55, lead time
    12, stock 2487 and minimum 656 gets 660, 0 and 0. *)
Theorem C1_predictDemand_formulas :
  (forall (item : InventoryItem) (a l c m cap : R),
      avg_usage_per_day item = Fin a ->
      restock_lead_time item = Fin l ->
      current_stock item = Fin c ->
      min_required item = Fin m ->
      max_capacity item = Fin cap ->
      let p := predictDemand item in
      estimated_demand p = Fin (a * l) /\
      inventory_shortfall p = Fin (Rmax 0 (m - c)) /\
      replenishment_needs p = Fin (Rmax 0 (a * l - c)) /\
      fc_avg_usage_per_day (feature_contributions p)
        = Fin (a / or_one (a * l) * 0.4) /\
      fc_restock_lead_time (feature_contributions p)
        = Fin (l / or_one (a * l) * 0.3) /\
      fc_current_stock (feature_contributions p)
        = Fin (c / or_one cap * 0.15) /\
      fc_min_required (feature_contributions p)
        = Fin (m / or_one cap * 0.15))
  /\
  (forall item : InventoryItem,
      avg_usage_per_day item = Fin 55 ->
      restock_lead_time item = Fin 12 ->
      current_stock item = Fin 2487 ->
      min_required item = Fin 656 ->
      let p := predictDemand item in
      estimated_demand p = Fin 660 /\
      inventory_shortfall p = Fin 0 /\
      replenishment_needs p = Fin 0).
Proof.
  split.
  - intros item a l c m cap Ha Hl Hc Hm Hcap p.
    subst p; unfold predictDemand; cbn [estimated_demand inventory_shortfall
      replenishment_needs feature_contributions fc_avg_usage_per_day
      fc_restock_lead_time fc_current_stock fc_min_required].
    rewrite Ha, Hl, Hc, Hm, Hcap.
    change (Fin a * Fin l)%js with (Fin (a * l)).
    rewrite !sub_fin, !max0_fin, !or_one_fin.
    rewrite !div_fin by apply or_one_nonzero.
    repeat split; reflexivity.
  - intros item Ha Hl Hc Hm p.
    subst p; unfold predictDemand; cbn [estimated_demand inventory_shortfall
      replenishment_needs].
    rewrite Ha, Hl, Hc, Hm.
    change (Fin 55 * Fin 12)%js with (Fin (55 * 12)).
    rewrite !sub_fin, !max0_fin.
    repeat split; f_equal; try lra; unfold Rmax; real_cases; lra.
Qed.

Lemma C1_predictDemand_formulas_witness :
  (estimated_demand (predictDemand ventilator) = Fin (55 * 12) /\
   inventory_shortfall (predictDemand ventilator) = Fin (Rmax 0 (656 - 2487)) /\
   replenishment_needs (predictDemand ventilator)
     = Fin (Rmax 0 (55 * 12 - 2487)) /\
   fc_avg_usage_per_day (feature_contributions (predictDemand ventilator))
     = Fin (55 / or_one (55 * 12) * 0.4) /\
   fc_restock_lead_time (feature_contributions (predictDemand ventilator))
     = Fin (12 / or_one (55 * 12) * 0.3) /\
   fc_current_stock (feature_contributions (predictDemand ventilator))
     = Fin (2487 / or_one 3556 * 0.15) /\
   fc_min_required (feature_contributions (predictDemand ventilator))
     = Fin (656 / or_one 3556 * 0.15)) /\
  (estimated_demand (predictDemand ventilator) = Fin 660 /\
   inventory_shortfall (predictDemand ventilator) = Fin 0 /\
   replenishment_needs (predictDemand ventilator) = Fin 0).
Proof.
  split.
  - exact (proj1 C1_predictDemand_formulas ventilator 55 12 2487 656 3556
             eq_refl eq_refl eq_refl eq_refl eq_refl).
  - exact (proj2 C1_predictDemand_formulas ventilator
             eq_refl eq_refl eq_refl eq_refl).
Defined.

(** ** The cost optimizer *)

Lemma sqrt_fin (x : R) : 0 <= x -> JS.sqrt (Fin x) = Fin (sqrt x).
Proof. intros Hx; unfold JS.sqrt; now rewrite Rltb_false. Qed.

Lemma div_pos_zero (a : R) : 0 < a -> (Fin a / Fin 0)%js = PInf.
Proof.
  intros Ha; unfold JS.div.
  rewrite Reqb_true by reflexivity.
  rewrite Reqb_false by lra.
  now rewrite Rltb_true.
Qed.

Lemma div_zero_zero : (Fin 0 / Fin 0)%js = NaN.
Proof. unfold JS.div; now rewrite !Reqb_true. Qed.

Lemma Rdiv_nonneg (x y : R) : 0 <= x -> 0 < y -> 0 <= x / y.
Proof.
  intros Hx Hy; unfold Rdiv.
  apply Rmult_le_pos; [assumption | left; now apply Rinv_0_lt_compat].
Qed.

(** The three regimes of the economic order quantity on non-negative
    inputs: a real square root, [+Infinity] and [NaN]. *)
Lemma calculateEOQ_fin (d h : R) :
  0 <= d -> 0 < h ->
  calculateEOQ (Fin d) (Fin 50) (Fin h) = Fin (sqrt (2 * d * 50 / h)).
Proof.
  intros Hd Hh; unfold calculateEOQ.
  change (Fin 2 * Fin d * Fin 50)%js with (Fin (2 * d * 50)).
  rewrite div_fin by lra.
  apply sqrt_fin, Rdiv_nonneg; lra.
Qed.

Lemma calculateEOQ_inf (d : R) :
  0 < d -> calculateEOQ (Fin d) (Fin 50) (Fin 0) = PInf.
Proof.
  intros Hd; unfold calculateEOQ.
  change (Fin 2 * Fin d * Fin 50)%js with (Fin (2 * d * 50)).
  rewrite div_pos_zero by lra. reflexivity.
Qed.

Lemma calculateEOQ_nan : calculateEOQ (Fin 0) (Fin 50) (Fin 0) = NaN.
Proof.
  unfold calculateEOQ.
  change (Fin 2 * Fin 0 * Fin 50)%js with (Fin (2 * 0 * 50)).
  replace (2 * 0 * 50) with 0 by lra.
  now rewrite div_zero_zero.
Qed.

Lemma eoq_optimizeItem (item : InventoryItem) (a u : R) :
  avg_usage_per_day item = Fin a ->
  unit_cost item = Fin u ->
  eoq (optimizeItem item) = calculateEOQ (Fin (a * 365)) (Fin 50) (Fin (u * 0.25)).
Proof. intros Ha Hu; unfold optimizeItem; cbn [eoq]; now rewrite Ha, Hu. Qed.

Lemma min_fin (x y : R) : JS.min (Fin x) (Fin y) = Fin (Rmin x y).
Proof.
  unfold JS.min, JS.lt, JS.Rltb, Rmin.
  real_cases; f_equal; lra.
Qed.

Lemma le_fin (x y : R) : x <= y -> (Fin x <=? Fin y)%js = true.
Proof. intros H; unfold JS.le; now apply Rleb_true. Qed.


Lemma Zceil_pos (x : R) : 0 < x -> 1 <= IZR (Zceil x).
Proof.
  intros Hx. apply IZR_le.
  destruct (Zceil_bound x) as [_ Hub].
  assert (H0 : 0 < IZR (Zceil x)) by lra.
  apply lt_IZR in H0. lia.
Qed.

Lemma safetyStock_fin (a l : R) :
  0 <= l ->
  calculateSafetyStock (Fin a) (Fin l) None = Fin (1.65 * (a * 0.2) * sqrt l).
Proof.
  intros Hl; unfold calculateSafetyStock.
  now rewrite sqrt_fin.
Qed.

(** C5, as stated, fails: with unit_cost = 0 and avg_usage_per_day = 0 the
    quotient under the square root is 0/0, eoq is NaN, so is
    optimal_order_quantity, and NaN <= max_capacity is false. *)
Lemma C5_counterexample_zero_cost_zero_usage :
  let item := sample_item 10 5 100 0 0 7 in
  eoq (optimizeItem item) = NaN /\
  optimalOrderQty (optimizeItem item) = NaN /\
  (optimalOrderQty (optimizeItem item) <=? max_capacity item)%js = false.
Proof.
  cbv zeta.
  assert (He : eoq (optimizeItem (sample_item 10 5 100 0 0 7)) = NaN).
  { rewrite (eoq_optimizeItem _ 0 0) by reflexivity.
    replace (0 * 365) with 0 by lra. replace (0 * 0.25) with 0 by lra.
    apply calculateEOQ_nan. }
  assert (Hq : optimalOrderQty (optimizeItem (sample_item 10 5 100 0 0 7)) = NaN).
  { change (optimalOrderQty (optimizeItem (sample_item 10 5 100 0 0 7)))
      with (JS.min (JS.ceil (eoq (optimizeItem (sample_item 10 5 100 0 0 7))))
              (Fin 100)).
    now rewrite He. }
  repeat split; try assumption.
  now rewrite Hq.
Qed.

(** C5 (amended). For every item with non-negative avg_usage_per_day and
    unit_cost that are not both zero, optimal_order_quantity <=
    max_capacity. *)
Theorem C5_optimal_order_quantity_le_capacity :
  forall (item : InventoryItem) (a u cap : R),
    avg_usage_per_day item = Fin a ->
    unit_cost item = Fin u ->
    max_capacity item = Fin cap ->
    0 <= a -> 0 <= u -> 0 < a \/ 0 < u ->
    (optimalOrderQty (optimizeItem item) <=? max_capacity item)%js = true.
Proof.
  intros item a u cap Ha Hu Hcap Ha0 Hu0 Hnz.
  change (optimalOrderQty (optimizeItem item))
    with (JS.min (JS.ceil (eoq (optimizeItem item))) (max_capacity item)).
  rewrite (eoq_optimizeItem item a u Ha Hu), Hcap.
  destruct (Rlt_dec 0 u) as [Hupos | Hu_zero].
  - rewrite calculateEOQ_fin by lra.
    cbn [JS.ceil]. rewrite min_fin.
    apply le_fin, Rmin_r.
  - assert (u = 0) by lra; subst u.
    replace (0 * 0.25) with 0 by lra.
    rewrite calculateEOQ_inf by lra.
    cbn. apply Rleb_true; lra.
Qed.

Lemma C5_optimal_order_quantity_le_capacity_witness :
  (optimalOrderQty (optimizeItem ventilator) <=? max_capacity ventilator)%js
  = true.
Proof.
  apply (C5_optimal_order_quantity_le_capacity ventilator 55 5832.29 3556);
    try reflexivity; lra.
Defined.

(** C6, as stated, fails: two items that differ in avg_usage_per_day only,
    0 against 1, with unit_cost = 0.  The eoq of the first is NaN, that of
    the second +Infinity, and +Infinity >= NaN is false. *)
Lemma C6_counterexample_zero_cost :
  let item1 := sample_item 10 5 100 0 0 7 in
  let item2 := sample_item 10 5 100 0 1 7 in
  eoq (optimizeItem item1) = NaN /\
  eoq (optimizeItem item2) = PInf /\
  JS.ge (eoq (optimizeItem item2)) (eoq (optimizeItem item1)) = false.
Proof.
  cbv zeta.
  assert (H1 : eoq (optimizeItem (sample_item 10 5 100 0 0 7)) = NaN).
  { rewrite (eoq_optimizeItem _ 0 0) by reflexivity.
    replace (0 * 365) with 0 by lra. replace (0 * 0.25) with 0 by lra.
    apply calculateEOQ_nan. }
  assert (H2 : eoq (optimizeItem (sample_item 10 5 100 0 1 7)) = PInf).
  { rewrite (eoq_optimizeItem _ 1 0) by reflexivity.
    replace (0 * 0.25) with 0 by lra.
    apply calculateEOQ_inf; lra. }
  rewrite H1, H2. repeat split.
Qed.

(** C6 (amended). For two items with the same unit_cost and non-negative
    usages a1 <= a2, where unit_cost > 0 or a1 > 0, the eoq of the second is
    greater than or equal to the eoq of the first, before and after the
    ceiling of the persisted row. *)
Theorem C6_eoq_monotone_in_usage :
  forall (item1 item2 : InventoryItem) (a1 a2 u : R),
    avg_usage_per_day item1 = Fin a1 ->
    avg_usage_per_day item2 = Fin a2 ->
    unit_cost item1 = Fin u ->
    unit_cost item2 = Fin u ->
    0 <= a1 -> a1 <= a2 -> 0 <= u -> 0 < u \/ 0 < a1 ->
    JS.ge (eoq (optimizeItem item2)) (eoq (optimizeItem item1)) = true /\
    JS.ge (co_eoq (costRow item2 (optimizeItem item2)))
          (co_eoq (costRow item1 (optimizeItem item1))) = true.
Proof.
  intros item1 item2 a1 a2 u Ha1 Ha2 Hu1 Hu2 H0 Hle Hu0 Hnz.
  cbn [costRow co_eoq]. unfold JS.ge.
  rewrite (eoq_optimizeItem item1 a1 u Ha1 Hu1).
  rewrite (eoq_optimizeItem item2 a2 u Ha2 Hu2).
  destruct (Rlt_dec 0 u) as [Hupos | Hu_zero].
  - rewrite !calculateEOQ_fin by lra.
    assert (Hs : sqrt (2 * (a1 * 365) * 50 / (u * 0.25))
                 <= sqrt (2 * (a2 * 365) * 50 / (u * 0.25))).
    { apply sqrt_le_1_alt. unfold Rdiv.
      apply Rmult_le_compat_r; [left; apply Rinv_0_lt_compat|]; lra. }
    split.
    + now apply le_fin.
    + cbn [JS.ceil]. apply le_fin, IZR_le, Zceil_le, Hs.
  - assert (u = 0) by lra; subst u.
    replace (0 * 0.25) with 0 by lra.
    rewrite !calculateEOQ_inf by lra.
    split; reflexivity.
Qed.

Lemma C6_eoq_monotone_in_usage_witness :
  JS.ge (eoq (optimizeItem (sample_item 10 5 100 2 8 7)))
        (eoq (optimizeItem (sample_item 10 5 100 2 3 7))) = true /\
  JS.ge (co_eoq (costRow (sample_item 10 5 100 2 8 7)
                   (optimizeItem (sample_item 10 5 100 2 8 7))))
        (co_eoq (costRow (sample_item 10 5 100 2 3 7)
                   (optimizeItem (sample_item 10 5 100 2 3 7)))) = true.
Proof.
  apply (C6_eoq_monotone_in_usage _ _ 3 8 2); try reflexivity; lra.
Defined.

(** On all non-negative inputs, including a zero unit cost, a larger usage
    never gives a strictly smaller eoq. *)
Lemma eoq_never_decreases (item1 item2 : InventoryItem) (a1 a2 u : R) :
  avg_usage_per_day item1 = Fin a1 ->
  avg_usage_per_day item2 = Fin a2 ->
  unit_cost item1 = Fin u ->
  unit_cost item2 = Fin u ->
  0 <= a1 -> a1 <= a2 -> 0 <= u ->
  (eoq (optimizeItem item2) <? eoq (optimizeItem item1))%js = false.
Proof.
  intros Ha1 Ha2 Hu1 Hu2 H0 Hle Hu0.
  rewrite (eoq_optimizeItem item1 a1 u Ha1 Hu1).
  rewrite (eoq_optimizeItem item2 a2 u Ha2 Hu2).
  destruct (Rlt_dec 0 u) as [Hupos | Hu_zero].
  - rewrite !calculateEOQ_fin by lra.
    cbn [JS.lt]. apply Rltb_false, sqrt_le_1_alt. unfold Rdiv.
    apply Rmult_le_compat_r; [left; apply Rinv_0_lt_compat|]; lra.
  - assert (u = 0) by lra; subst u.
    replace (0 * 0.25) with 0 by lra.
    destruct (Rlt_dec 0 a1) as [Ha1pos | Ha1_zero].
    + now rewrite !calculateEOQ_inf by lra.
    + assert (a1 = 0) by lra; subst a1.
      replace (0 * 365) with 0 by lra.
      rewrite calculateEOQ_nan.
      now destruct (calculateEOQ _ _ _).
Qed.

(** ** Alerts *)

Lemma stockPercentage_fin (item : InventoryItem) (cs mr : R) :
  current_stock item = Fin cs ->
  min_required item = Fin mr ->
  0 < mr ->
  stockPercentage item = Fin (cs / mr * 100).
Proof.
  intros Hcs Hmr Hpos; unfold stockPercentage.
  rewrite Hcs, Hmr, div_fin by lra. reflexivity.
Qed.

(** The three bands of the alert generator on a finite percentage. *)
Lemma generateAlert_bands (w : World) (item : InventoryItem)
  (prediction : Prediction) (pct : R) :
  stockPercentage item = Fin pct ->
  (pct < 10 ->
   exists a, generateAlert w item prediction = Some a /\
             severity a = "critical" /\ alert_type a = "critical_stock") /\
  (10 <= pct < 20 ->
   exists a, generateAlert w item prediction = Some a /\
             severity a = "warning" /\ alert_type a = "low_stock") /\
  (20 <= pct -> generateAlert w item prediction = None).
Proof.
  intros Hpct; unfold generateAlert; rewrite Hpct; cbn [JS.lt].
  repeat split.
  - intros H. rewrite Rltb_true by lra.
    eexists; repeat split.
  - intros H. rewrite Rltb_false, Rltb_true by lra.
    eexists; repeat split.
  - intros H. now rewrite !Rltb_false by lra.
Qed.

(** C4, as stated, fails at its first case: an item whose stock is exactly
    10% of min_required (10 of 100) is not below 10, so it falls in the
    second band and gets a warning, not a critical alert. *)
Lemma C4_counterexample_exactly_10_percent :
  let item := sample_item 10 100 500 3 8 20 in
  let alert := generateAlert sample_world item (predictDemand item) in
  stockPercentage item = Fin 10 /\
  option_map severity alert = Some "warning" /\
  option_map severity alert <> Some "critical".
Proof.
  cbv zeta.
  assert (Hpct : stockPercentage (sample_item 10 100 500 3 8 20) = Fin 10).
  { rewrite (stockPercentage_fin _ 10 100) by (reflexivity || lra).
    f_equal; lra. }
  destruct (generateAlert_bands sample_world (sample_item 10 100 500 3 8 20)
              (predictDemand (sample_item 10 100 500 3 8 20)) 10 Hpct)
    as (_ & Hwarning & _).
  destruct Hwarning as (a & Ha & Hsev & _); [lra|].
  rewrite Ha; cbn [option_map]; rewrite Hsev.
  repeat split; [assumption | discriminate].
Qed.

(** C4 (amended). With min_required > 0: stock at exactly 10% of
    min_required yields a warning alert (type low_stock); at exactly 20% it
    yields no alert; at 19.999% it yields a warning alert. *)
Theorem C4_alert_boundaries :
  forall (w : World) (item : InventoryItem) (prediction : Prediction)
         (cs mr : R),
    current_stock item = Fin cs ->
    min_required item = Fin mr ->
    0 < mr ->
    (cs / mr * 100 = 10 ->
     exists a, generateAlert w item prediction = Some a /\
               severity a = "warning" /\ alert_type a = "low_stock") /\
    (cs / mr * 100 = 20 -> generateAlert w item prediction = None) /\
    (cs / mr * 100 = 19.999 ->
     exists a, generateAlert w item prediction = Some a /\
               severity a = "warning" /\ alert_type a = "low_stock").
Proof.
  intros w item prediction cs mr Hcs Hmr Hpos.
  pose proof (stockPercentage_fin item cs mr Hcs Hmr Hpos) as Hpct.
  destruct (generateAlert_bands w item prediction _ Hpct)
    as (_ & Hwarning & Hnone).
  repeat split; intros H.
  - apply Hwarning; lra.
  - apply Hnone; lra.
  - apply Hwarning; lra.
Qed.

Lemma C4_alert_boundaries_witness :
  (exists a, generateAlert sample_world (sample_item 10 100 500 3 8 20)
               (predictDemand (sample_item 10 100 500 3 8 20)) = Some a /\
             severity a = "warning" /\ alert_type a = "low_stock") /\
  generateAlert sample_world (sample_item 20 100 500 3 8 20)
    (predictDemand (sample_item 20 100 500 3 8 20)) = None /\
  (exists a, generateAlert sample_world (sample_item 19999 100000 500 3 8 20)
               (predictDemand (sample_item 19999 100000 500 3 8 20)) = Some a /\
             severity a = "warning" /\ alert_type a = "low_stock").
Proof.
  split; [|split].
  - destruct (C4_alert_boundaries sample_world (sample_item 10 100 500 3 8 20)
                (predictDemand (sample_item 10 100 500 3 8 20)) 10 100
                eq_refl eq_refl ltac:(lra)) as (H & _ & _).
    apply H; lra.
  - destruct (C4_alert_boundaries sample_world (sample_item 20 100 500 3 8 20)
                (predictDemand (sample_item 20 100 500 3 8 20)) 20 100
                eq_refl eq_refl ltac:(lra)) as (_ & H & _).
    apply H; lra.
  - destruct (C4_alert_boundaries sample_world
                (sample_item 19999 100000 500 3 8 20)
                (predictDemand (sample_item 19999 100000 500 3 8 20))
                19999 100000 eq_refl eq_refl ltac:(lra)) as (_ & _ & H).
    apply H; lra.
Defined.

(** ** The seed formulas against the estimator *)

(** The seed computes estimated demand and shortfall as the estimator
    does. *)
Lemma seed_demand_and_shortfall_agree (w : World) (m : ModelRow) (n : nat)
  (item : InventoryItem) :
  pr_estimated_demand (seed_dashboard_row item)
    = estimated_demand (predictDemand item) /\
  pr_inventory_shortfall (seed_dashboard_row item)
    = inventory_shortfall (predictDemand item) /\
  ph_predicted_demand (seed_history_row w m n item)
    = estimated_demand (predictDemand item).
Proof. repeat split. Qed.

(** C7. On the first catalog item (stock 2487, capacity 3556, usage 55,
    lead time 12) the seed writes replenishment_needs =
    max(0, max_capacity - current_stock) = 1069 in the dashboard row and in
    the history row, where predictDemand returns
    max(0, estimated_demand - current_stock) = 0. *)
Theorem C7_seed_replenishment_differs_from_predictDemand :
  pr_replenishment_needs (seed_dashboard_row ventilator) = Fin 1069 /\
  (forall (w : World) (m : ModelRow) (n : nat),
      ph_feature_values (seed_history_row w m n ventilator)
      = SeedFeatureValues (Fin 55) (Fin 12) (Fin 2487) (Fin 0) (Fin 1069)
          (Fin 5832.29)) /\
  replenishment_needs (predictDemand ventilator) = Fin 0 /\
  pr_replenishment_needs (seed_dashboard_row ventilator)
    <> replenishment_needs (predictDemand ventilator).
Proof.
  assert (Hseed : JS.max (Fin 0) (Fin 3556 - Fin 2487)%js = Fin 1069).
  { rewrite sub_fin, max0_fin. f_equal.
    unfold Rmax; real_cases; lra. }
  assert (Hshort : JS.max (Fin 0) (Fin 656 - Fin 2487)%js = Fin 0).
  { rewrite sub_fin, max0_fin. f_equal.
    unfold Rmax; real_cases; lra. }
  assert (Hpred : replenishment_needs (predictDemand ventilator) = Fin 0).
  { unfold predictDemand, ventilator, sample_item;
      cbn [replenishment_needs avg_usage_per_day restock_lead_time
           current_stock].
    change (Fin 55 * Fin 12)%js with (Fin (55 * 12)).
    rewrite sub_fin, max0_fin. f_equal.
    unfold Rmax; real_cases; lra. }
  repeat split.
  - exact Hseed.
  - intros w m n. unfold seed_history_row, ventilator, sample_item;
      cbn [ph_feature_values avg_usage_per_day restock_lead_time current_stock
           min_required max_capacity unit_cost].
    now rewrite Hseed, Hshort.
  - exact Hpred.
  - rewrite Hpred.
    change (pr_replenishment_needs (seed_dashboard_row ventilator))
      with (JS.max (Fin 0) (Fin 3556 - Fin 2487)%js).
    rewrite Hseed. intros H; injection H; lra.
Qed.

(** ** The credential check *)

Lemma authenticate_rejects {B} (w : World) (req : Request B) (st : Store) :
  credential w req = None ->
  exists msg,
    authenticate w req st = (inl (ErrorObject msg), st) /\
    (msg = "Missing authorization header" \/ msg = "Unauthorized").
Proof.
  unfold credential, authenticate.
  destruct (present (authorization req)) as [h|].
  - intros Hnone; rewrite Hnone. eexists; split; [reflexivity | now right].
  - intros _. eexists; split; [reflexivity | now left].
Qed.

Lemma authenticate_accepts {B} (w : World) (req : Request B) (st : Store)
  (user : User) :
  credential w req = Some user ->
  authenticate w req st = (inr user, st).
Proof.
  unfold credential, authenticate.
  destruct (present (authorization req)) as [h|]; [|discriminate].
  intros Hsome; now rewrite Hsome.
Qed.

Lemma not_preflight {B} (req : Request B) :
  method req <> "OPTIONS" -> String.eqb (method req) "OPTIONS" = false.
Proof. intros H; now apply String.eqb_neq. Qed.

(** ** Running handler bodies *)

Lemma orThrow_db_call {A} (w : World) (c : DbCall) (op : Store -> A * Store)
  (st : Store) :
  db_error w c = None ->
  orThrow (db_call w c op) st = (inr (fst (op st)), snd (op st)).
Proof.
  intros Hok; unfold orThrow, bind, db_call; rewrite Hok.
  destruct (op st); reflexivity.
Qed.

Lemma db_call_ok {A} (w : World) (c : DbCall) (op : Store -> A * Store)
  (st : Store) :
  db_error w c = None ->
  db_call w c op st = (inr (inr (fst (op st))), snd (op st)).
Proof.
  intros Hok; unfold db_call; rewrite Hok.
  destruct (op st); reflexivity.
Qed.

(** ** seed-sample-data never looks at the credential *)

Lemma upsert_model_inventory (w : World) (st : Store) :
  inventory_items (snd (upsert_model w st)) = inventory_items st.
Proof. unfold upsert_model. now destruct (upsert_row _ _ _ _). Qed.

(** When every store call succeeds, a request that is not a pre-flight is
    answered 200 and the catalog is upserted, whatever the request
    carries. *)
Lemma seed_sample_data_succeeds {B} (w : World) (req : Request B) (st : Store) :
  method req <> "OPTIONS" ->
  (forall c, db_error w c = None) ->
  exists resp st',
    seed_sample_data w req st = (resp, st') /\
    status resp = 200%nat /\
    inventory_items st'
      = fst (fst (upsert_inventory_rows w inventoryItems
                    (inventory_items st) (next_uuid st))).
Proof.
  intros Hm Hdb.
  unfold seed_sample_data. rewrite (not_preflight req Hm).
  unfold catch500, bind.
  rewrite !orThrow_db_call by apply Hdb.
  cbv beta iota.
  set (items := fst (upsert_inventory w inventoryItems st)).
  assert (Hinv : inventory_items (snd (upsert_inventory w inventoryItems st))
                 = fst (fst (upsert_inventory_rows w inventoryItems
                               (inventory_items st) (next_uuid st)))).
  { unfold upsert_inventory.
    destruct (upsert_inventory_rows w inventoryItems (inventory_items st)
                (next_uuid st)) as [[table next] stored]. reflexivity. }
  destruct (Nat.ltb 0 _).
  - rewrite orThrow_db_call by apply Hdb. cbv beta iota.
    eexists; eexists; split; [reflexivity|]. split; [reflexivity|].
    cbn [snd insert_alerts upsert_predictions insert_history inventory_items].
    now rewrite upsert_model_inventory.
  - unfold ret at 1. cbv beta iota.
    eexists; eexists; split; [reflexivity|]. split; [reflexivity|].
    cbn [snd insert_alerts upsert_predictions insert_history inventory_items].
    now rewrite upsert_model_inventory.
Qed.

(** C8, as stated, fails.  seed-sample-data has no credential check: a
    POST without any authorization header, against stores that accept every
    call, is answered 200 and leaves the eight catalog rows in
    inventory_items.  And the two other handlers answer a pre-flight
    (method OPTIONS) 200 with an empty body before any check. *)
Lemma C8_counterexample_seed_and_preflight :
  credential sample_world (anonymous_request "POST") = None /\
  (exists resp st',
      seed_sample_data sample_world (anonymous_request "POST") empty_store
      = (resp, st') /\
      status resp = 200%nat /\
      map item_name (inventory_items st')
      = ["Ventilator"; "Surgical Mask"; "IV Drip"; "Surgical Gloves";
         "Syringes"; "Bandages"; "X-Ray Film"; "Oxygen Tanks"]) /\
  run_predictions sample_world
    {| method := "OPTIONS"; authorization := None; json := inl OtherValue |}
    empty_store
  = ({| status := 200; body := NullBody |}, empty_store) /\
  calculate_cost_optimization sample_world
    {| method := "OPTIONS"; authorization := None; json := inl OtherValue |}
    empty_store
  = ({| status := 200; body := NullBody |}, empty_store).
Proof.
  split; [reflexivity|]. split; [|split; reflexivity].
  destruct (seed_sample_data_succeeds sample_world (anonymous_request "POST")
              empty_store) as (resp & st' & Hrun & Hstatus & Hinv).
  - discriminate.
  - reflexivity.
  - exists resp, st'. repeat split; try assumption.
    rewrite Hinv. reflexivity.
Qed.

(** C8 (amended). run-predictions and calculate-cost-optimization answer
    every request that is not a pre-flight and whose bearer credential is
    missing or not resolvable with status 500 and an {error: message} body
    (Missing authorization header, or Unauthorized), and leave the store
    untouched. *)
Theorem C8_compute_handlers_reject_unresolved_credentials :
  forall (w : World) (st : Store),
    (forall req : Request PredictionInput,
        method req <> "OPTIONS" ->
        credential w req = None ->
        exists msg,
          run_predictions w req st
          = ({| status := 500; body := ErrorBody msg |}, st) /\
          (msg = "Missing authorization header" \/ msg = "Unauthorized")) /\
    (forall req : Request EOQInput,
        method req <> "OPTIONS" ->
        credential w req = None ->
        exists msg,
          calculate_cost_optimization w req st
          = ({| status := 500; body := ErrorBody msg |}, st) /\
          (msg = "Missing authorization header" \/ msg = "Unauthorized")).
Proof.
  intros w st; split; intros req Hm Hcred;
    destruct (authenticate_rejects w req st Hcred) as (msg & Hauth & Hmsg);
    exists msg; (split; [|exact Hmsg]).
  - unfold run_predictions. rewrite (not_preflight req Hm).
    unfold catch500, bind. now rewrite Hauth.
  - unfold calculate_cost_optimization. rewrite (not_preflight req Hm).
    unfold catch500, bind. now rewrite Hauth.
Qed.

Lemma C8_compute_handlers_reject_unresolved_credentials_witness :
  exists msg,
    run_predictions sample_world (demo_request (Some "Bearer forged"))
      store_with_model
    = ({| status := 500; body := ErrorBody msg |}, store_with_model) /\
    (msg = "Missing authorization header" \/ msg = "Unauthorized").
Proof.
  apply (proj1 (C8_compute_handlers_reject_unresolved_credentials
                  sample_world store_with_model)).
  - discriminate.
  - reflexivity.
Defined.

(** ** Demo mode *)

Lemma newest_from (rows : list ModelRow) (best : ModelRow) :
  exists m,
    fold_left
      (fun best r =>
         match best with
         | None => Some r
         | Some b => if Nat.ltb (created_at b) (created_at r)
                     then Some r else Some b
         end)
      rows (Some best) = Some m /\
    (m = best \/ In m rows) /\
    (created_at best <= created_at m)%nat /\
    (forall m', In m' rows -> (created_at m' <= created_at m)%nat).
Proof.
  revert best; induction rows as [|r rows IH]; intros best.
  - exists best; cbn; repeat split; auto. intros m' [].
  - cbn [fold_left].
    destruct (Nat.ltb (created_at best) (created_at r)) eqn:Hlt.
    + apply Nat.ltb_lt in Hlt.
      destruct (IH r) as (m & Hm & Hin & Hge & Hall).
      exists m; repeat split; auto.
      * right; destruct Hin as [-> | Hin]; [now left | now right].
      * lia.
      * intros m' [<- | Hin']; auto.
    + apply Nat.ltb_ge in Hlt.
      destruct (IH best) as (m & Hm & Hin & Hge & Hall).
      exists m; repeat split; auto.
      * destruct Hin as [-> | Hin]; [now left | right; now right].
      * intros m' [<- | Hin']; [lia | auto].
Qed.

(** [newest] returns a row of maximal [created_at]. *)
Lemma newest_spec (rows : list ModelRow) :
  rows <> [] ->
  exists m,
    newest rows = Some m /\ In m rows /\
    (forall m', In m' rows -> (created_at m' <= created_at m)%nat).
Proof.
  destruct rows as [|r rows]; [congruence | intros _].
  unfold newest; cbn [fold_left].
  destruct (newest_from rows r) as (m & Hm & Hin & Hge & Hall).
  exists m; repeat split; auto.
  - destruct Hin as [-> | Hin]; [now left | now right].
  - intros m' [<- | Hin']; auto.
Qed.

(** Whatever the credential and the registry, a request that supplies
    single_prediction leaves the store as it was. *)
Lemma demo_request_never_writes (w : World) (req : Request PredictionInput)
  (st : Store) (input : PredictionInput) (sp : SinglePrediction) :
  json req = inr input ->
  single_prediction input = Some sp ->
  snd (run_predictions w req st) = st.
Proof.
  intros Hjson Hsp. unfold run_predictions.
  destruct (String.eqb (method req) "OPTIONS"); [reflexivity|].
  unfold catch500, bind, authenticate.
  destruct (present (authorization req)) as [h|]; [|reflexivity].
  destruct (getUser w _) as [user|]; [|reflexivity].
  unfold ret at 1, req_json. rewrite Hjson. unfold ret at 1, db_call.
  destruct (db_error w SelectActiveModel) as [e|]; [reflexivity|].
  unfold select_active_model.
  destruct (newest _) as [m|]; [|reflexivity].
  now rewrite Hsp.
Qed.

(** C9, as stated, fails: a demo-mode request is answered 200 only after
    the credential check.  With an active model in the registry, the same
    single_prediction body gets status 500 when the authorization header is
    missing or carries a token the identity provider rejects, and a
    pre-flight gets an empty 200 even with a valid credential. *)
Lemma C9_counterexample_unauthenticated_demo_request :
  In (seed_model sample_world "model-1" 0) (model_registry store_with_model) /\
  run_predictions sample_world (demo_request None) store_with_model
  = ({| status := 500; body := ErrorBody "Missing authorization header" |},
     store_with_model) /\
  run_predictions sample_world (demo_request (Some "Bearer forged"))
    store_with_model
  = ({| status := 500; body := ErrorBody "Unauthorized" |}, store_with_model) /\
  run_predictions sample_world
    {| method := "OPTIONS";
       authorization := Some "Bearer valid-token";
       json := json (demo_request None) |}
    store_with_model
  = ({| status := 200; body := NullBody |}, store_with_model).
Proof. repeat split; now left. Qed.

(** C9 (amended). For every run-predictions request that is not a
    pre-flight, whose bearer credential resolves to a user, whose body
    supplies single_prediction, and for which the registry query succeeds
    and holds an active model, the handler returns 200 with the estimator's
    result on the supplied fields and the model_version of the most recently
    created active model, and the store is left exactly as it was. *)
Theorem C9_demo_mode_returns_estimate_without_writes :
  forall (w : World) (req : Request PredictionInput) (st : Store)
         (input : PredictionInput) (sp : SinglePrediction) (user : User)
         (m0 : ModelRow),
    method req <> "OPTIONS" ->
    credential w req = Some user ->
    json req = inr input ->
    single_prediction input = Some sp ->
    db_error w SelectActiveModel = None ->
    In m0 (model_registry st) -> is_active m0 = true ->
    exists m,
      In m (model_registry st) /\ is_active m = true /\
      (forall m', In m' (model_registry st) -> is_active m' = true ->
                  (created_at m' <= created_at m)%nat) /\
      run_predictions w req st
      = ({| status := 200;
            body := DemoBody (predictDemand (demo_item sp)) (model_version m) |},
         st).
Proof.
  intros w req st input sp user m0 Hm Hcred Hjson Hsp Hdb Hin Hactive.
  destruct (newest_spec (filter is_active (model_registry st)))
    as (m & Hnew & Hmin & Hmax).
  { intros Hnil. assert (Hf : In m0 (filter is_active (model_registry st)))
      by (apply filter_In; auto).
    rewrite Hnil in Hf; destruct Hf. }
  apply filter_In in Hmin. destruct Hmin as [Hmin Hmact].
  exists m; repeat split; auto.
  - intros m' Hin' Hact'. apply Hmax, filter_In; auto.
  - unfold run_predictions. rewrite (not_preflight req Hm).
    unfold catch500, bind.
    rewrite (authenticate_accepts w req st user Hcred).
    unfold req_json; rewrite Hjson; unfold ret at 1.
    rewrite db_call_ok by assumption.
    unfold select_active_model at 1; cbn [fst snd].
    rewrite Hnew, Hsp. reflexivity.
Qed.

Lemma C9_demo_mode_returns_estimate_without_writes_witness :
  exists m,
    In m (model_registry store_with_model) /\ is_active m = true /\
    (forall m', In m' (model_registry store_with_model) ->
                is_active m' = true -> (created_at m' <= created_at m)%nat) /\
    run_predictions sample_world (demo_request (Some "Bearer valid-token"))
      store_with_model
    = ({| status := 200;
          body := DemoBody (predictDemand (demo_item ventilator_fields))
                    (model_version m) |},
       store_with_model).
Proof.
  apply (C9_demo_mode_returns_estimate_without_writes sample_world
           (demo_request (Some "Bearer valid-token")) store_with_model
           {| pi_item_id := None; pi_run_all := false;
              single_prediction := Some ventilator_fields |}
           ventilator_fields {| user_id := "user-1" |}
           (seed_model sample_world "model-1" 0)).
  - discriminate.
  - reflexivity.
  - reflexivity.
  - reflexivity.
  - reflexivity.
  - now left.
  - reflexivity.
Defined.

(** ** What the two loops persist *)


Lemma push_option_list {A} (l : list A) (o : option A) :
  push l o = (l ++ option_list o)%list.
Proof. destruct o; cbn; [reflexivity | now rewrite app_nil_r]. Qed.

(** The prediction loop returns a prediction, and pushes the alert of
    [generateAlert], for exactly the items whose prediction row the store
    accepts, in order. *)
Lemma predict_items_spec (w : World) (user : User) (model : ModelRow)
  (items : list InventoryItem) :
  forall (predictions : list (string * Prediction)) (alerts : list AlertRow)
         (st : Store),
  exists st',
    predict_items w user model items predictions alerts st
    = (inr ((predictions
               ++ map (fun i => (id i, predictDemand i))
                    (filter (prediction_stored w) items))%list,
            (alerts
               ++ flat_map
                    (fun i => option_list (generateAlert w i (predictDemand i)))
                    (filter (prediction_stored w) items))%list), st').
Proof.
  induction items as [|item items IH]; intros predictions alerts st.
  - exists st; cbn. now rewrite !app_nil_r.
  - cbn [predict_items filter]. unfold bind at 1.
    unfold db_call at 1, prediction_stored.
    destruct (db_error w (InsertPrediction (id item))) as [e|].
    + apply IH.
    + cbn [insert_prediction]. unfold bind at 1.
      destruct (db_call w (InsertHistory (id item)) _ _) as [[e|r] st1] eqn:Hh.
      * unfold db_call in Hh.
        destruct (db_error w (InsertHistory (id item))); discriminate.
      * destruct (IH (predictions ++ [(id item, predictDemand item)])%list
                    (push alerts (generateAlert w item (predictDemand item)))
                    st1) as (st' & Hrun).
        exists st'. rewrite Hrun, push_option_list. cbn [map flat_map].
        now rewrite <- !app_assoc.
Qed.

(** ** The responses of the two batch runs *)

Lemma select_items_frame (run_all : bool) (item_id : option string)
  (st : Store) :
  snd (select_items run_all item_id st) = st.
Proof. reflexivity. Qed.




(** An authenticated batch prediction run over a non-empty selection, with
    an active model, returns the predictions of the items whose row was
    stored and counts the alerts [generateAlert] yields for them. *)
Lemma run_predictions_response (w : World) (req : Request PredictionInput)
  (st : Store) (input : PredictionInput) (user : User) (model : ModelRow) :
  method req <> "OPTIONS" ->
  credential w req = Some user ->
  json req = inr input ->
  single_prediction input = None ->
  db_error w SelectActiveModel = None ->
  newest (filter is_active (model_registry st)) = Some model ->
  db_error w SelectItems = None ->
  fst (select_items (pi_run_all input) (pi_item_id input) st) <> [] ->
  let items := fst (select_items (pi_run_all input) (pi_item_id input) st) in
  let stored := filter (prediction_stored w) items in
  let alerts :=
    flat_map (fun i => option_list (generateAlert w i (predictDemand i)))
      stored in
  exists st',
    run_predictions w req st
    = ({| status := 200;
          body := PredictionsBody
                    (map (fun i => (id i, predictDemand i)) stored)
                    (List.length alerts) (model_version model) |}, st').
Proof.
  intros Hm Hcred Hjson Hsp Hdbm Hnew Hdbi Hne; cbv zeta.
  unfold run_predictions. rewrite (not_preflight req Hm).
  unfold catch500, bind.
  rewrite (authenticate_accepts w req st user Hcred).
  unfold req_json; rewrite Hjson; unfold ret at 1.
  rewrite db_call_ok by assumption.
  change (snd (select_active_model st)) with st.
  unfold select_active_model; cbn [fst].
  rewrite Hnew, Hsp.
  rewrite db_call_ok by assumption. rewrite select_items_frame.
  destruct (fst (select_items (pi_run_all input) (pi_item_id input) st))
    as [|item items] eqn:Hsel; [congruence|].
  destruct (predict_items_spec w user model (item :: items) [] [] st)
    as (st' & Hrun).
  rewrite Hrun. cbn [app].
  destruct (Nat.ltb 0 _).
  - destruct (db_call w InsertAlerts _ st') as [[e|r] st''] eqn:Hal.
    + unfold db_call in Hal. destruct (db_error w InsertAlerts); discriminate.
    + exists st''. reflexivity.
  - exists st'. reflexivity.
Qed.

(** ** The boundary inputs on binary64 *)

Module Binary64Runs.

Import PrimFloat.
Local Open Scope float_scope.

(** 10 of 100 is exactly 10 percent also after rounding: not below 10,
    below 20. *)
Example ten_percent :
  ltb (Binary64.stockPercentage 10 100) 10 = false /\
  ltb (Binary64.stockPercentage 10 100) 20 = true.
Proof. split; reflexivity. Qed.

Example twenty_percent :
  ltb (Binary64.stockPercentage 20 100) 20 = false.
Proof. reflexivity. Qed.

Example just_below_twenty_percent :
  ltb (Binary64.stockPercentage 19999 100000) 10 = false /\
  ltb (Binary64.stockPercentage 19999 100000) 20 = true.
Proof. split; reflexivity. Qed.

(** Zero unit cost: NaN at usage 0, +Infinity at usage 1. *)
Example eoq_zero_cost_zero_usage :
  is_nan (Binary64.calculateEOQ (0 * 365) 50 (0 * 0.25)) = true.
Proof. reflexivity. Qed.

Example eoq_zero_cost_unit_usage :
  Binary64.calculateEOQ (1 * 365) 50 (0 * 0.25) = infinity.
Proof. reflexivity. Qed.

(** Usage 1, lead time 1: the reorder point lies strictly between 1 and 2,
    so a stock of 2 is above it and not above its ceiling. *)
Example reorder_point_between_1_and_2 :
  let reorderPoint :=
    Binary64.calculateReorderPoint 1 1
      (Binary64.calculateSafetyStock 1 1 None) in
  ltb 1 reorderPoint = true /\ ltb reorderPoint 2 = true /\
  leb 2 reorderPoint = false.
Proof. repeat split; reflexivity. Qed.

(** Unit cost 8.03 and usage 55: the quotient under the square root is
    1000000 on reals, and just above it after rounding, so the eoq is just
    above 1000 and its ceiling is 1001. *)
Example eoq_just_above_1000 :
  Binary64.calculateEOQ (55 * 365) 50 (8.03 * 0.25) = 1000.0000000000001 /\
  Binary64.ceil (Binary64.calculateEOQ (55 * 365) 50 (8.03 * 0.25)) = 1001.
Proof. split; reflexivity. Qed.

(** [Math.ceil] on whole, fractional, negative and special values. *)
Example ceil_runs :
  map Binary64.ceil [1000; 999.9999999999999; 0.3; -0.3; -1.5; 0; infinity]
  = [1000; 1000; 1; -0; -1; 0; infinity] /\
  is_nan (Binary64.ceil nan) = true.
Proof. split; reflexivity. Qed.

(** The run of calculate-cost-optimization over one item with usage 1,
    lead time 1 and stock 2, on doubles: reorder_point 2 is stored and
    returned with should_reorder false, and 2 <= 2. *)
Example should_reorder_run :
  let st := Binary64.store_of [Binary64.sample_item 2 1 100 4 1 1] in
  let out :=
    Binary64.calculate_cost_optimization sample_world optimize_all_request st in
  match Binary64.body (fst out), Binary64.cost_optimization (snd out) with
  | Binary64.OptimizationsBody [entry] 1, [row] =>
      Binary64.oe_reorder_point entry = 2 /\
      Binary64.co_reorder_point row = 2 /\
      Binary64.oe_should_reorder entry = false /\
      leb (Binary64.oe_current_stock entry) (Binary64.oe_reorder_point entry)
      = true
  | _, _ => False
  end.
Proof. repeat split; reflexivity. Qed.

End Binary64Runs.

(** On the idealised numbers the item of [eoq_just_above_1000] has an eoq
    of exactly 1000: the two embeddings are one unit apart after
    [Math.ceil]. *)
Lemma idealised_eoq_is_1000 :
  eoq (optimizeItem (sample_item 120 40 5000 8.03 55 7)) = Fin 1000.
Proof.
  rewrite (eoq_optimizeItem _ 55 8.03) by reflexivity.
  rewrite calculateEOQ_fin by lra.
  replace (2 * (55 * 365) * 50 / (8.03 * 0.25)) with (1000 * 1000) by lra.
  rewrite sqrt_square by lra. reflexivity.
Qed.

(** ** The cost optimizer on binary64: what a run persists and returns *)

Section CostOptimizerOnBinary64.

Import PrimFloat.
Import Binary64.
Local Open Scope float_scope.

(** The loop returns an entry, and appends a row, for exactly the items
    whose insert the store accepts, in order. *)
Lemma optimize_items_on_binary64 (w : World) (items : list InventoryItem) :
  forall (acc : list OptimizationEntry) (st : Store),
    optimize_items w items acc st
    = ((acc ++ map (fun i => optimizationEntry i (optimizeItem i))
                 (filter (optimization_stored w) items))%list,
       {| inventory_items := inventory_items st;
          cost_optimization :=
            (cost_optimization st
             ++ map (fun i => costRow i (optimizeItem i))
                  (filter (optimization_stored w) items))%list |}).
Proof.
  induction items as [|item items IH]; intros acc st.
  - cbn. rewrite !app_nil_r. now destruct st.
  - cbn [optimize_items filter].
    change (optimization_stored w item)
      with (match db_error w (InsertCostOptimization (id item)) with
            | None => true
            | Some _ => false
            end).
    destruct (db_error w (InsertCostOptimization (id item))) as [e|].
    + apply IH.
    + rewrite IH. cbn [insert_cost_optimization inventory_items
                         cost_optimization map].
      now rewrite <- !app_assoc.
Qed.

(** An authenticated run over a non-empty selection answers 200 with the
    entries of the items whose row was stored, and appends their rows. *)
Lemma cost_run_on_binary64 (w : World) (req : Request EOQInput) (st : Store)
  (input : EOQInput) (user : User) :
  method req <> "OPTIONS" ->
  credential w req = Some user ->
  json req = inr input ->
  db_error w SelectItems = None ->
  select_items (eoq_run_all input) (eoq_item_id input) st <> [] ->
  let items := select_items (eoq_run_all input) (eoq_item_id input) st in
  let stored := filter (optimization_stored w) items in
  let entries := map (fun i => optimizationEntry i (optimizeItem i)) stored in
  calculate_cost_optimization w req st
  = ({| status := 200;
        body := OptimizationsBody entries (List.length entries) |},
     {| inventory_items := inventory_items st;
        cost_optimization :=
          (cost_optimization st
           ++ map (fun i => costRow i (optimizeItem i)) stored)%list |}).
Proof.
  intros Hm Hcred Hjson Hdb Hne; cbv zeta.
  unfold calculate_cost_optimization. rewrite (not_preflight req Hm).
  unfold credential in Hcred.
  destruct (present (authorization req)) as [authHeader|]; [|discriminate].
  rewrite Hcred, Hjson, Hdb.
  destruct (select_items (eoq_run_all input) (eoq_item_id input) st)
    as [|item items] eqn:Hsel; [congruence|].
  now rewrite optimize_items_on_binary64.
Qed.

(** With rounding too, a returned entry carries should_reorder =
    current_stock <= reorder_point on the unrounded reorder point, and the
    entry and the row carry the ceiling of that value. *)
Lemma should_reorder_on_binary64 (w : World) (req : Request EOQInput)
  (st : Store) (input : EOQInput) (user : User) :
  method req <> "OPTIONS" ->
  credential w req = Some user ->
  json req = inr input ->
  db_error w SelectItems = None ->
  select_items (eoq_run_all input) (eoq_item_id input) st <> [] ->
  let items := select_items (eoq_run_all input) (eoq_item_id input) st in
  let stored := filter (optimization_stored w) items in
  let reorder_point item :=
    avg_usage_per_day item * restock_lead_time item
    + 1.65 * (avg_usage_per_day item * 0.2) * sqrt (restock_lead_time item) in
  exists rows entries,
    calculate_cost_optimization w req st
    = ({| status := 200;
          body := OptimizationsBody entries (List.length entries) |},
       {| inventory_items := inventory_items st;
          cost_optimization := (cost_optimization st ++ rows)%list |}) /\
    map (fun entry =>
           (oe_item_id entry, oe_current_stock entry, oe_reorder_point entry,
            oe_should_reorder entry)) entries
    = map (fun item =>
             (id item, current_stock item, ceil (reorder_point item),
              current_stock item <=? reorder_point item)) stored /\
    map (fun row => (co_item_id row, co_reorder_point row)) rows
    = map (fun item => (id item, ceil (reorder_point item))) stored.
Proof.
  intros Hm Hcred Hjson Hdb Hne; cbv zeta.
  rewrite (cost_run_on_binary64 w req st input user Hm Hcred Hjson Hdb Hne).
  eexists; eexists. split; [reflexivity|].
  split; rewrite map_map; apply map_ext; intros i; reflexivity.
Qed.



End CostOptimizerOnBinary64.

(** ** Error paths of the two compute handlers *)

Lemma filter_none_active (rows : list ModelRow) :
  (forall m, In m rows -> is_active m = false) ->
  filter is_active rows = [].
Proof.
  induction rows as [|r rows IH]; intros Hall; [reflexivity|].
  cbn [filter]. rewrite (Hall r) by now left.
  apply IH. intros m Hin. apply Hall. now right.
Qed.

(** X1. An authenticated run-predictions request whose body parses is
    answered 500 "No active model found", with the store untouched, when
    the registry query fails or the registry holds no active model; demo
    mode included, since the body's fields are looked at afterwards. *)
Theorem X1_no_active_model :
  forall (w : World) (req : Request PredictionInput) (st : Store)
         (user : User) (input : PredictionInput),
    method req <> "OPTIONS" ->
    credential w req = Some user ->
    json req = inr input ->
    db_error w SelectActiveModel <> None \/
    (forall m, In m (model_registry st) -> is_active m = false) ->
    run_predictions w req st
    = ({| status := 500; body := ErrorBody "No active model found" |}, st).
Proof.
  intros w req st user input Hm Hcred Hjson Hnone.
  unfold run_predictions. rewrite (not_preflight req Hm).
  unfold catch500, bind.
  rewrite (authenticate_accepts w req st user Hcred).
  unfold req_json; rewrite Hjson; unfold ret at 1.
  unfold db_call.
  destruct (db_error w SelectActiveModel) as [e|] eqn:Hdb; [reflexivity|].
  destruct Hnone as [Hfail | Hinactive]; [congruence|].
  unfold select_active_model.
  now rewrite (filter_none_active _ Hinactive).
Qed.

Lemma X1_no_active_model_witness :
  run_predictions sample_world (demo_request (Some "Bearer valid-token"))
    empty_store
  = ({| status := 500; body := ErrorBody "No active model found" |},
     empty_store).
Proof.
  apply (X1_no_active_model sample_world _ empty_store
           {| user_id := "user-1" |}
           {| pi_item_id := None; pi_run_all := false;
              single_prediction := Some ventilator_fields |}).
  - discriminate.
  - reflexivity.
  - reflexivity.
  - right. intros m [].
Defined.

(** X2. Both compute handlers answer an authenticated request 500 "No items
    found", with the store untouched, when the item query fails or selects
    no row (run-predictions: outside demo mode and with an active model). *)
Theorem X2_no_items_found :
  (forall (w : World) (req : Request PredictionInput) (st : Store)
          (user : User) (input : PredictionInput) (model : ModelRow),
      method req <> "OPTIONS" ->
      credential w req = Some user ->
      json req = inr input ->
      single_prediction input = None ->
      db_error w SelectActiveModel = None ->
      newest (filter is_active (model_registry st)) = Some model ->
      db_error w SelectItems <> None \/
      fst (select_items (pi_run_all input) (pi_item_id input) st) = [] ->
      run_predictions w req st
      = ({| status := 500; body := ErrorBody "No items found" |}, st))
  /\
  (forall (w : World) (req : Request EOQInput) (st : Store)
          (user : User) (input : EOQInput),
      method req <> "OPTIONS" ->
      credential w req = Some user ->
      json req = inr input ->
      db_error w SelectItems <> None \/
      fst (select_items (eoq_run_all input) (eoq_item_id input) st) = [] ->
      calculate_cost_optimization w req st
      = ({| status := 500; body := ErrorBody "No items found" |}, st)).
Proof.
  split.
  - intros w req st user input model Hm Hcred Hjson Hsp Hdbm Hnew Hnone.
    unfold run_predictions. rewrite (not_preflight req Hm).
    unfold catch500, bind.
    rewrite (authenticate_accepts w req st user Hcred).
    unfold req_json; rewrite Hjson; unfold ret at 1.
    rewrite db_call_ok by assumption.
    change (snd (select_active_model st)) with st.
    unfold select_active_model; cbn [fst].
    rewrite Hnew, Hsp.
    unfold db_call.
    destruct (db_error w SelectItems) as [e|] eqn:Hdb; [reflexivity|].
    destruct Hnone as [Hfail | Hempty]; [congruence|].
    destruct (select_items (pi_run_all input) (pi_item_id input) st)
      as [items st1] eqn:Hsel.
    cbn [fst] in Hempty; subst items.
    unfold select_items in Hsel. now inversion Hsel.
  - intros w req st user input Hm Hcred Hjson Hnone.
    unfold calculate_cost_optimization. rewrite (not_preflight req Hm).
    unfold catch500, bind.
    rewrite (authenticate_accepts w req st user Hcred).
    unfold req_json; rewrite Hjson; unfold ret at 1.
    unfold db_call.
    destruct (db_error w SelectItems) as [e|] eqn:Hdb; [reflexivity|].
    destruct Hnone as [Hfail | Hempty]; [congruence|].
    destruct (select_items (eoq_run_all input) (eoq_item_id input) st)
      as [items st1] eqn:Hsel.
    cbn [fst] in Hempty; subst items.
    unfold select_items in Hsel. now inversion Hsel.
Qed.

Lemma X2_no_items_found_witness :
  calculate_cost_optimization sample_world
    {| method := "POST"; authorization := Some "Bearer valid-token";
       json := inr {| eoq_item_id := None; eoq_run_all := true |} |}
    store_with_model
  = ({| status := 500; body := ErrorBody "No items found" |},
     store_with_model).
Proof.
  apply (proj2 X2_no_items_found sample_world _ store_with_model
           {| user_id := "user-1" |}
           {| eoq_item_id := None; eoq_run_all := true |}).
  - discriminate.
  - reflexivity.
  - reflexivity.
  - right; reflexivity.
Defined.

(** X3. When the body of an authenticated request cannot be read, both
    compute handlers answer 500 with the message of the thrown error, or
    "Unknown error occurred" when what was thrown is not an Error, and
    leave the store untouched. *)
Theorem X3_unreadable_body :
  forall (w : World) (st : Store) (user : User) (e : thrown),
    let message :=
      match e with
      | ErrorObject msg => msg
      | OtherValue => "Unknown error occurred"
      end in
    (forall req : Request PredictionInput,
        method req <> "OPTIONS" ->
        credential w req = Some user ->
        json req = inl e ->
        run_predictions w req st
        = ({| status := 500; body := ErrorBody message |}, st)) /\
    (forall req : Request EOQInput,
        method req <> "OPTIONS" ->
        credential w req = Some user ->
        json req = inl e ->
        calculate_cost_optimization w req st
        = ({| status := 500; body := ErrorBody message |}, st)).
Proof.
  intros w st user e; cbv zeta; split; intros req Hm Hcred Hjson.
  - unfold run_predictions. rewrite (not_preflight req Hm).
    unfold catch500, bind.
    rewrite (authenticate_accepts w req st user Hcred).
    unfold req_json; rewrite Hjson. now destruct e.
  - unfold calculate_cost_optimization. rewrite (not_preflight req Hm).
    unfold catch500, bind.
    rewrite (authenticate_accepts w req st user Hcred).
    unfold req_json; rewrite Hjson. now destruct e.
Qed.

Lemma X3_unreadable_body_witness :
  run_predictions sample_world
    {| method := "POST"; authorization := Some "Bearer valid-token";
       json := inl (ErrorObject "Unexpected end of JSON input") |}
    store_with_model
  = ({| status := 500; body := ErrorBody "Unexpected end of JSON input" |},
     store_with_model).
Proof.
  apply (proj1 (X3_unreadable_body sample_world store_with_model
                  {| user_id := "user-1" |}
                  (ErrorObject "Unexpected end of JSON input"))).
  - discriminate.
  - reflexivity.
  - reflexivity.
Defined.

(** ** What the loops leave in the store *)

Lemma prediction_stored_iff (w : World) (item : InventoryItem) :
  prediction_stored w item
  = match db_error w (InsertPrediction (id item)) with
    | None => true
    | Some _ => false
    end.
Proof. reflexivity. Qed.

Lemma history_stored_iff (w : World) (item : InventoryItem) :
  history_stored w item
  = match db_error w (InsertHistory (id item)) with
    | None => true
    | Some _ => false
    end.
Proof. reflexivity. Qed.

(** The prediction loop appends one [predictions] row per item whose insert
    was accepted, one [prediction_history] row per such item whose history
    insert was accepted too, and touches no other table. *)
Lemma predict_items_store (w : World) (user : User) (model : ModelRow)
  (items : list InventoryItem) :
  forall (predictions0 : list (string * Prediction)) (alerts : list AlertRow)
         (st : Store),
  exists out st',
    predict_items w user model items predictions0 alerts st = (inr out, st') /\
    predictions st'
    = (predictions st
       ++ map (prediction_row user) (filter (prediction_stored w) items))%list /\
    prediction_history st'
    = (prediction_history st
       ++ map (history_row user model)
            (filter (fun i => prediction_stored w i && history_stored w i)
               items))%list /\
    inventory_items st' = inventory_items st /\
    model_registry st' = model_registry st /\
    alerts_history st' = alerts_history st /\
    cost_optimization st' = cost_optimization st.
Proof.
  induction items as [|item items IH]; intros predictions0 alerts st.
  - exists (predictions0, alerts), st. cbn. now rewrite !app_nil_r.
  - cbn [predict_items filter].
    rewrite (prediction_stored_iff w item), (history_stored_iff w item).
    unfold bind at 1. unfold db_call at 1.
    destruct (db_error w (InsertPrediction (id item))) as [e|].
    + cbn [andb]. apply IH.
    + cbn [insert_prediction andb]. unfold bind at 1, db_call at 1.
      destruct (db_error w (InsertHistory (id item))) as [e|].
      * match goal with
        | |- context [predict_items w user model items ?p ?a ?s] =>
            destruct (IH p a s)
              as (out & st' & Hrun & Hp & Hh & Hi & Hm & Ha & Hc)
        end.
        exists out, st'. rewrite Hrun. repeat split; try assumption.
        rewrite Hp. cbn [predictions map]. now rewrite <- app_assoc.
      * cbn [insert_history].
        match goal with
        | |- context [predict_items w user model items ?p ?a ?s] =>
            destruct (IH p a s)
              as (out & st' & Hrun & Hp & Hh & Hi & Hm & Ha & Hc)
        end.
        exists out, st'. rewrite Hrun. repeat split; try assumption.
        -- rewrite Hp. cbn [predictions map]. now rewrite <- app_assoc.
        -- rewrite Hh. cbn [prediction_history map]. now rewrite <- app_assoc.
Qed.

(** The optimization loop touches no table but [cost_optimization]. *)
Lemma optimize_items_frame (w : World) (items : list InventoryItem) :
  forall (acc : list OptimizationEntry) (st : Store),
    let st' := snd (optimize_items w items acc st) in
    inventory_items st' = inventory_items st /\
    model_registry st' = model_registry st /\
    predictions st' = predictions st /\
    prediction_history st' = prediction_history st /\
    alerts_history st' = alerts_history st.
Proof.
  induction items as [|item items IH]; intros acc st; cbv zeta.
  - cbn. repeat split.
  - cbn [optimize_items]. unfold bind, db_call.
    destruct (db_error w (InsertCostOptimization (id item))) as [e|].
    + apply IH.
    + cbn [insert_cost_optimization].
      match goal with
      | |- context [optimize_items w items ?a ?s] =>
          destruct (IH a s) as (Hi & Hm & Hp & Hh & Ha)
      end.
      repeat split; assumption.
Qed.

(** X4. Whatever the request, the world and the outcome, run-predictions
    leaves inventory_items, model_registry and cost_optimization as they
    were, and calculate-cost-optimization leaves every table but
    cost_optimization as it was. *)
Theorem X4_tables_the_compute_handlers_never_write :
  (forall (w : World) (req : Request PredictionInput) (st : Store),
      let st' := snd (run_predictions w req st) in
      inventory_items st' = inventory_items st /\
      model_registry st' = model_registry st /\
      cost_optimization st' = cost_optimization st)
  /\
  (forall (w : World) (req : Request EOQInput) (st : Store),
      let st' := snd (calculate_cost_optimization w req st) in
      inventory_items st' = inventory_items st /\
      model_registry st' = model_registry st /\
      predictions st' = predictions st /\
      prediction_history st' = prediction_history st /\
      alerts_history st' = alerts_history st).
Proof.
  split; intros w req st; cbv zeta.
  - remember (run_predictions w req st) as out eqn:Hout.
    unfold run_predictions in Hout.
    destruct (String.eqb (method req) "OPTIONS"); [now subst|].
    unfold catch500, bind, authenticate in Hout.
    destruct (present (authorization req)) as [h|]; [|now subst].
    destruct (getUser w _) as [user|]; [|now subst].
    unfold ret at 1, req_json in Hout.
    destruct (json req) as [[msg|]|input]; [now subst ..|].
    unfold ret at 1, db_call at 1 in Hout.
    destruct (db_error w SelectActiveModel) as [e|]; [now subst|].
    unfold select_active_model in Hout.
    destruct (newest _) as [model|]; [|now subst].
    destruct (single_prediction input) as [sp|]; [now subst|].
    unfold db_call at 1 in Hout.
    destruct (db_error w SelectItems) as [e|]; [now subst|].
    destruct (select_items (pi_run_all input) (pi_item_id input) st)
      as [items st1] eqn:Hsel.
    assert (st1 = st) by (unfold select_items in Hsel; now inversion Hsel).
    subst st1.
    destruct items as [|item items]; [now subst|].
    destruct (predict_items_store w user model (item :: items) [] [] st)
      as ([predictions0 alerts] & st' & Hrun & _ & _ & Hi & Hm & _ & Hc).
    rewrite Hrun in Hout.
    destruct (Nat.ltb 0 (List.length alerts)).
    + unfold db_call in Hout.
      destruct (db_error w InsertAlerts) as [e|]; subst out; cbn;
        now repeat split.
    + subst out; cbn. now repeat split.
  - remember (calculate_cost_optimization w req st) as out eqn:Hout.
    unfold calculate_cost_optimization in Hout.
    destruct (String.eqb (method req) "OPTIONS"); [now subst|].
    unfold catch500, bind, authenticate in Hout.
    destruct (present (authorization req)) as [h|]; [|now subst].
    destruct (getUser w _) as [user|]; [|now subst].
    unfold ret at 1, req_json in Hout.
    destruct (json req) as [[msg|]|input]; [now subst ..|].
    unfold ret at 1, db_call at 1 in Hout.
    destruct (db_error w SelectItems) as [e|]; [now subst|].
    destruct (select_items (eoq_run_all input) (eoq_item_id input) st)
      as [items st1] eqn:Hsel.
    assert (st1 = st) by (unfold select_items in Hsel; now inversion Hsel).
    subst st1.
    destruct items as [|item items]; [now subst|].
    pose proof (optimize_items_frame w (item :: items) [] st) as Hframe.
    cbv zeta in Hframe.
    destruct (optimize_items w (item :: items) [] st) as [[e|entries] st'].
    + destruct e; subst out; exact Hframe.
    + subst out; exact Hframe.
Qed.

(** ** A batch run of run-predictions, response and store *)

Lemma flat_map_option_length {A B} (f : A -> option B) (l : list A) :
  (List.length (flat_map (fun a => option_list (f a)) l) <= List.length l)%nat.
Proof.
  induction l as [|a l IH]; cbn [flat_map List.length]; [lia|].
  rewrite length_app. destruct (f a); cbn; lia.
Qed.

Lemma filter_length_bound {A} (f : A -> bool) (l : list A) :
  (List.length (filter f l) <= List.length l)%nat.
Proof.
  induction l as [|a l IH]; cbn; [lia|]. destruct (f a); cbn; lia.
Qed.

(** Everything an authenticated batch run does, given an active model and a
    non-empty selection. *)
Lemma run_predictions_batch (w : World) (req : Request PredictionInput)
  (st : Store) (input : PredictionInput) (user : User) (model : ModelRow) :
  method req <> "OPTIONS" ->
  credential w req = Some user ->
  json req = inr input ->
  single_prediction input = None ->
  db_error w SelectActiveModel = None ->
  newest (filter is_active (model_registry st)) = Some model ->
  db_error w SelectItems = None ->
  fst (select_items (pi_run_all input) (pi_item_id input) st) <> [] ->
  let items := fst (select_items (pi_run_all input) (pi_item_id input) st) in
  let stored := filter (prediction_stored w) items in
  let alerts :=
    flat_map (fun i => option_list (generateAlert w i (predictDemand i)))
      stored in
  exists st',
    run_predictions w req st
    = ({| status := 200;
          body := PredictionsBody
                    (map (fun i => (id i, predictDemand i)) stored)
                    (List.length alerts) (model_version model) |}, st') /\
    predictions st'
    = (predictions st ++ map (prediction_row user) stored)%list /\
    prediction_history st'
    = (prediction_history st
       ++ map (history_row user model)
            (filter (fun i => prediction_stored w i && history_stored w i)
               items))%list /\
    alerts_history st'
    = (if Nat.ltb 0 (List.length alerts)
       then match db_error w InsertAlerts with
            | None => alerts_history st ++ alerts
            | Some _ => alerts_history st
            end
       else alerts_history st)%list.
Proof.
  intros Hm Hcred Hjson Hsp Hdbm Hnew Hdbi Hne; cbv zeta.
  unfold run_predictions. rewrite (not_preflight req Hm).
  unfold catch500, bind.
  rewrite (authenticate_accepts w req st user Hcred).
  unfold req_json; rewrite Hjson; unfold ret at 1.
  rewrite db_call_ok by assumption.
  change (snd (select_active_model st)) with st.
  unfold select_active_model; cbn [fst].
  rewrite Hnew, Hsp.
  rewrite db_call_ok by assumption. rewrite select_items_frame.
  destruct (fst (select_items (pi_run_all input) (pi_item_id input) st))
    as [|item items] eqn:Hsel; [congruence|].
  destruct (predict_items_spec w user model (item :: items) [] [] st)
    as (st1 & Hspec).
  destruct (predict_items_store w user model (item :: items) [] [] st)
    as (out & st' & Hrun & Hp & Hh & _ & _ & Ha & _).
  rewrite Hrun in Hspec. injection Hspec as Hout Hst. subst out st1.
  rewrite Hrun. cbn [app].
  destruct (Nat.ltb 0 _).
  - unfold db_call.
    destruct (db_error w InsertAlerts) as [e|].
    + exists st'. repeat split; assumption.
    + cbn [insert_alerts]. eexists. split; [reflexivity|].
      cbn [predictions prediction_history alerts_history].
      rewrite Ha. repeat split; assumption.
  - exists st'. repeat split; assumption.
Qed.

(** An alert names the item it was generated for. *)
Lemma generateAlert_item (w : World) (item : InventoryItem)
  (prediction : Prediction) (a : AlertRow) :
  generateAlert w item prediction = Some a -> alert_item_id a = id item.
Proof.
  unfold generateAlert.
  destruct (_ <? Fin 10)%js; [|destruct (_ <? Fin 20)%js];
    intros H; [| |discriminate]; injection H as <-; reflexivity.
Qed.

(** C3, as stated, fails for an item the run goes through but whose
    predictions insert the store rejects: the alert thresholds are only
    evaluated once the prediction row is stored, so the item at 5% of its
    minimum gets no alert (alerts_generated is 0 and nothing is written). *)
Lemma C3_counterexample_rejected_prediction_insert :
  let w := world_rejecting is_InsertPrediction in
  fst (select_items true None store_with_item) = [scarce_item] /\
  stockPercentage scarce_item = Fin 5 /\
  run_predictions w batch_request store_with_item
  = ({| status := 200; body := PredictionsBody [] 0 "v1.0.0" |},
     store_with_item).
Proof.
  cbv zeta. split; [reflexivity|]. split.
  - unfold scarce_item.
    rewrite (stockPercentage_fin _ 10 200) by (reflexivity || lra).
    f_equal; lra.
  - reflexivity.
Qed.

(** C3 (amended). In an answered batch run the alerts generated (counted
    by alerts_generated, and appended to alerts_history when the store
    accepts the insert) are, in order, those of the items whose predictions
    row was stored; for such an item with min_required > 0 and
    stock_percentage = current_stock / min_required * 100: below 10 its
    alert is critical / critical_stock; from 10 up to, not including, 20 it
    is warning / low_stock; from 20 on it has none.  Every alert
    generated names an item whose predictions insert was accepted: an item
    whose insert is rejected has none. *)
Theorem C3_alerts_of_stored_items :
  forall (w : World) (req : Request PredictionInput) (st : Store)
         (input : PredictionInput) (user : User) (model : ModelRow),
    method req <> "OPTIONS" ->
    credential w req = Some user ->
    json req = inr input ->
    single_prediction input = None ->
    db_error w SelectActiveModel = None ->
    newest (filter is_active (model_registry st)) = Some model ->
    db_error w SelectItems = None ->
    fst (select_items (pi_run_all input) (pi_item_id input) st) <> [] ->
    let items := fst (select_items (pi_run_all input) (pi_item_id input) st) in
    let stored := filter (prediction_stored w) items in
    exists alerts,
      fst (run_predictions w req st)
      = {| status := 200;
           body := PredictionsBody
                     (map (fun item => (id item, predictDemand item)) stored)
                     (List.length alerts) (model_version model) |} /\
      (db_error w InsertAlerts = None ->
       alerts_history (snd (run_predictions w req st))
       = (alerts_history st ++ alerts)%list) /\
      alerts
      = flat_map
          (fun item => option_list (generateAlert w item (predictDemand item)))
          stored /\
      (forall a, In a alerts ->
                 exists item,
                   In item stored /\ alert_item_id a = id item /\
                   db_error w (InsertPrediction (id item)) = None) /\
      (forall (item : InventoryItem) (cs mr : R),
          In item stored ->
          current_stock item = Fin cs ->
          min_required item = Fin mr ->
          0 < mr ->
          let stock_percentage := cs / mr * 100 in
          (stock_percentage < 10 ->
           exists a, generateAlert w item (predictDemand item) = Some a /\
                     In a alerts /\ alert_item_id a = id item /\
                     severity a = "critical" /\
                     alert_type a = "critical_stock") /\
          (10 <= stock_percentage < 20 ->
           exists a, generateAlert w item (predictDemand item) = Some a /\
                     In a alerts /\ alert_item_id a = id item /\
                     severity a = "warning" /\ alert_type a = "low_stock") /\
          (20 <= stock_percentage ->
           generateAlert w item (predictDemand item) = None)).
Proof.
  intros w req st input user model Hm Hcred Hjson Hsp Hdbm Hnew Hdbi Hne.
  cbv zeta.
  destruct (run_predictions_batch w req st input user model
              Hm Hcred Hjson Hsp Hdbm Hnew Hdbi Hne)
    as (st' & Hrun & _ & _ & Ha).
  rewrite Hrun; cbn [fst snd].
  eexists. split; [reflexivity|]. split; [|split; [reflexivity|split]].
  - intros Hok. rewrite Ha, Hok.
    destruct (Nat.ltb 0 _) eqn:Hlen; [reflexivity|].
    apply Nat.ltb_ge in Hlen.
    destruct (flat_map _ _); [now rewrite app_nil_r | cbn in Hlen; lia].
  - intros a Hin. apply in_flat_map in Hin. destruct Hin as (item & Hin & Hgen).
    exists item. split; [exact Hin|].
    destruct (generateAlert w item (predictDemand item)) as [a'|] eqn:Hal;
      [|contradiction].
    destruct Hgen as [<-|[]]. split; [now apply generateAlert_item in Hal|].
    apply filter_In in Hin. destruct Hin as [_ Hst].
    rewrite prediction_stored_iff in Hst.
    now destruct (db_error w (InsertPrediction (id item))).
  - intros item cs mr Hin Hcs Hmr Hpos.
    pose proof (stockPercentage_fin item cs mr Hcs Hmr Hpos) as Hpct.
    destruct (generateAlert_bands w item (predictDemand item) _ Hpct)
      as (Hcritical & Hwarning & Hnone).
    assert (Hmem : forall a,
               generateAlert w item (predictDemand item) = Some a ->
               In a (flat_map
                       (fun i => option_list (generateAlert w i (predictDemand i)))
                       (filter (prediction_stored w)
                          (fst (select_items (pi_run_all input)
                                  (pi_item_id input) st))))).
    { intros a Hgen. apply in_flat_map. exists item. split; [exact Hin|].
      rewrite Hgen. now left. }
    repeat split.
    + intros H. destruct (Hcritical H) as (a & Hgen & Hsev & Hty).
      exists a. repeat split; try assumption; [now apply Hmem|].
      now apply generateAlert_item in Hgen.
    + intros H. destruct (Hwarning H) as (a & Hgen & Hsev & Hty).
      exists a. repeat split; try assumption; [now apply Hmem|].
      now apply generateAlert_item in Hgen.
    + exact Hnone.
Qed.

Lemma C3_alerts_of_stored_items_witness :
  exists a,
    generateAlert sample_world scarce_item (predictDemand scarce_item) = Some a /\
    In a (alerts_history
            (snd (run_predictions sample_world batch_request store_with_item))) /\
    alert_item_id a = id scarce_item /\
    severity a = "critical" /\ alert_type a = "critical_stock".
Proof.
  destruct (C3_alerts_of_stored_items sample_world batch_request
              store_with_item run_all_input {| user_id := "user-1" |}
              (seed_model sample_world "model-1" 0))
    as (alerts & _ & Hhistory & _ & _ & Hbands);
    try reflexivity; try discriminate.
  destruct (Hbands scarce_item 10 200) as (Hcritical & _ & _);
    try reflexivity; [now left | lra |].
  destruct Hcritical as (a & Hgen & Hin & Hid & Hsev & Hty); [lra|].
  exists a. repeat split; try assumption.
  rewrite Hhistory by reflexivity. exact Hin.
Defined.

(** X5. A batch run returns a prediction for exactly the selected items
    whose predictions row the store accepted, in order, and counts their
    alerts: alerts_generated <= number of predictions <= number of selected
    items.  An item whose insert fails is skipped without an error. *)
Theorem X5_batch_response_skips_rejected_items :
  forall (w : World) (req : Request PredictionInput) (st : Store)
         (input : PredictionInput) (user : User) (model : ModelRow),
    method req <> "OPTIONS" ->
    credential w req = Some user ->
    json req = inr input ->
    single_prediction input = None ->
    db_error w SelectActiveModel = None ->
    newest (filter is_active (model_registry st)) = Some model ->
    db_error w SelectItems = None ->
    fst (select_items (pi_run_all input) (pi_item_id input) st) <> [] ->
    let items := fst (select_items (pi_run_all input) (pi_item_id input) st) in
    let stored := filter (prediction_stored w) items in
    exists alerts_generated,
      fst (run_predictions w req st)
      = {| status := 200;
           body := PredictionsBody
                     (map (fun i => (id i, predictDemand i)) stored)
                     alerts_generated (model_version model) |} /\
      (forall i, In i stored <->
                 In i items /\ db_error w (InsertPrediction (id i)) = None) /\
      (alerts_generated <= List.length stored <= List.length items)%nat.
Proof.
  intros w req st input user model Hm Hcred Hjson Hsp Hdbm Hnew Hdbi Hne.
  cbv zeta.
  destruct (run_predictions_batch w req st input user model
              Hm Hcred Hjson Hsp Hdbm Hnew Hdbi Hne) as (st' & Hrun & _).
  eexists; split; [now rewrite Hrun|]. split.
  - intros i. rewrite filter_In, prediction_stored_iff.
    destruct (db_error w (InsertPrediction (id i))); intuition congruence.
  - split; [apply flat_map_option_length | apply filter_length_bound].
Qed.

Lemma X5_batch_response_skips_rejected_items_witness :
  exists alerts_generated,
    fst (run_predictions sample_world batch_request store_with_item)
    = {| status := 200;
         body := PredictionsBody
                   [(id scarce_item, predictDemand scarce_item)]
                   alerts_generated "v1.0.0" |} /\
    (forall i, In i [scarce_item] <->
               In i [scarce_item] /\
               db_error sample_world (InsertPrediction (id i)) = None) /\
    (alerts_generated <= 1 <= 1)%nat.
Proof.
  apply (X5_batch_response_skips_rejected_items sample_world batch_request
           store_with_item run_all_input {| user_id := "user-1" |}
           (seed_model sample_world "model-1" 0));
    try reflexivity; discriminate.
Defined.

(** X6. After a batch run the predictions table holds one new row per
    returned prediction, with the estimator's three figures and the caller
    as predicted_by; prediction_history holds a new row for those of them
    whose history insert was accepted as well, so a rejected history insert
    loses the history row but not the prediction. *)
Theorem X6_batch_rows_written :
  forall (w : World) (req : Request PredictionInput) (st : Store)
         (input : PredictionInput) (user : User) (model : ModelRow),
    method req <> "OPTIONS" ->
    credential w req = Some user ->
    json req = inr input ->
    single_prediction input = None ->
    db_error w SelectActiveModel = None ->
    newest (filter is_active (model_registry st)) = Some model ->
    db_error w SelectItems = None ->
    fst (select_items (pi_run_all input) (pi_item_id input) st) <> [] ->
    let items := fst (select_items (pi_run_all input) (pi_item_id input) st) in
    let stored := filter (prediction_stored w) items in
    let st' := snd (run_predictions w req st) in
    predictions st'
    = (predictions st ++ map (prediction_row user) stored)%list /\
    prediction_history st'
    = (prediction_history st
       ++ map (history_row user model)
            (filter (history_stored w) stored))%list.
Proof.
  intros w req st input user model Hm Hcred Hjson Hsp Hdbm Hnew Hdbi Hne.
  cbv zeta.
  destruct (run_predictions_batch w req st input user model
              Hm Hcred Hjson Hsp Hdbm Hnew Hdbi Hne)
    as (st' & Hrun & Hp & Hh & _).
  rewrite Hrun; cbn [snd]. split; [exact Hp|].
  rewrite Hh. do 2 f_equal.
  generalize (fst (select_items (pi_run_all input) (pi_item_id input) st)).
  intros l; induction l as [|i l IH]; [reflexivity|].
  cbn [filter]. destruct (prediction_stored w i); cbn [andb filter];
    [destruct (history_stored w i)|]; now rewrite IH.
Qed.

Lemma X6_batch_rows_written_witness :
  let w := world_rejecting is_InsertHistory in
  let st' := snd (run_predictions w batch_request store_with_item) in
  predictions st'
  = map (prediction_row {| user_id := "user-1" |}) [scarce_item] /\
  prediction_history st' = [].
Proof.
  apply (X6_batch_rows_written (world_rejecting is_InsertHistory)
           batch_request store_with_item run_all_input
           {| user_id := "user-1" |} (seed_model sample_world "model-1" 0));
    try reflexivity; discriminate.
Defined.

(** X7. A rejected insert of the alerts is not reported: the response is
    the same 200 with the same alerts_generated, and alerts_history is left
    as it was. *)
Theorem X7_rejected_alert_insert_is_silent :
  forall (w : World) (req : Request PredictionInput) (st : Store)
         (input : PredictionInput) (user : User) (model : ModelRow),
    method req <> "OPTIONS" ->
    credential w req = Some user ->
    json req = inr input ->
    single_prediction input = None ->
    db_error w SelectActiveModel = None ->
    newest (filter is_active (model_registry st)) = Some model ->
    db_error w SelectItems = None ->
    fst (select_items (pi_run_all input) (pi_item_id input) st) <> [] ->
    db_error w InsertAlerts <> None ->
    let items := fst (select_items (pi_run_all input) (pi_item_id input) st) in
    let stored := filter (prediction_stored w) items in
    let alerts :=
      flat_map (fun i => option_list (generateAlert w i (predictDemand i)))
        stored in
    fst (run_predictions w req st)
    = {| status := 200;
         body := PredictionsBody
                   (map (fun i => (id i, predictDemand i)) stored)
                   (List.length alerts) (model_version model) |} /\
    alerts_history (snd (run_predictions w req st)) = alerts_history st.
Proof.
  intros w req st input user model Hm Hcred Hjson Hsp Hdbm Hnew Hdbi Hne Hrej.
  cbv zeta.
  destruct (run_predictions_batch w req st input user model
              Hm Hcred Hjson Hsp Hdbm Hnew Hdbi Hne)
    as (st' & Hrun & _ & _ & Ha).
  rewrite Hrun; cbn [fst snd]. split; [reflexivity|].
  rewrite Ha. destruct (Nat.ltb 0 _); [|reflexivity].
  destruct (db_error w InsertAlerts); congruence.
Qed.

Lemma X7_rejected_alert_insert_is_silent_witness :
  let w := world_rejecting is_InsertAlerts in
  fst (run_predictions w batch_request store_with_item)
  = {| status := 200;
       body := PredictionsBody
                 [(id scarce_item, predictDemand scarce_item)]
                 (List.length
                    (option_list
                       (generateAlert w scarce_item (predictDemand scarce_item))
                     ++ [])%list)
                 "v1.0.0" |} /\
  alerts_history (snd (run_predictions w batch_request store_with_item)) = [].
Proof.
  apply (X7_rejected_alert_insert_is_silent (world_rejecting is_InsertAlerts)
           batch_request store_with_item run_all_input
           {| user_id := "user-1" |} (seed_model sample_world "model-1" 0));
    try reflexivity; discriminate.
Defined.

(** ** A batch run of calculate-cost-optimization *)



(** ** Which items a request selects *)

(** X9. Both compute handlers treat a request without item_id, or with an
    empty one, as a request for every item: with run_all false it is
    answered exactly as [{ run_all: true }] is, whatever item_id that one
    carries. *)
Theorem X9_missing_item_id_selects_every_item :
  forall (w : World) (st : Store) (m : string) (auth : option string)
         (ignored : option string),
    (forall empty, empty = None \/ empty = Some "" ->
       run_predictions w
         {| method := m; authorization := auth;
            json := inr {| pi_item_id := empty; pi_run_all := false;
                           single_prediction := None |} |} st
       = run_predictions w
           {| method := m; authorization := auth;
              json := inr {| pi_item_id := ignored; pi_run_all := true;
                             single_prediction := None |} |} st) /\
    (forall empty, empty = None \/ empty = Some "" ->
       calculate_cost_optimization w
         {| method := m; authorization := auth;
            json := inr {| eoq_item_id := empty; eoq_run_all := false |} |} st
       = calculate_cost_optimization w
           {| method := m; authorization := auth;
              json := inr {| eoq_item_id := ignored; eoq_run_all := true |} |}
           st).
Proof.
  intros w st m auth ignored.
  split; intros empty [-> | ->]; reflexivity.
Qed.

Lemma X9_missing_item_id_selects_every_item_witness :
  run_predictions sample_world
    {| method := "POST"; authorization := Some "Bearer valid-token";
       json := inr {| pi_item_id := Some ""; pi_run_all := false;
                      single_prediction := None |} |} store_with_item
  = run_predictions sample_world
      {| method := "POST"; authorization := Some "Bearer valid-token";
         json := inr {| pi_item_id := Some "item-9"; pi_run_all := true;
                        single_prediction := None |} |} store_with_item.
Proof.
  apply (proj1 (X9_missing_item_id_selects_every_item sample_world
                  store_with_item "POST" (Some "Bearer valid-token")
                  (Some "item-9"))).
  now right.
Defined.

(** ** The token a header carries *)

Lemma substring_all (s : string) : substring 0 (String.length s) s = s.
Proof. induction s as [|c s IH]; cbn; [reflexivity | now rewrite IH]. Qed.

Lemma prefix_split (pat s : string) :
  String.prefix pat s = true -> exists t, s = pat ++ t.
Proof.
  revert s; induction pat as [|c pat IH]; intros s Hp.
  - now exists s.
  - destruct s as [|d s]; cbn in Hp; [discriminate|].
    destruct (Ascii.ascii_dec c d) as [<- | Hne]; [|discriminate].
    destruct (IH s Hp) as (t & ->). now exists t.
Qed.

Lemma replace_first_absent (pat rep s : string) :
  (forall s1 s2, s <> s1 ++ pat ++ s2) ->
  replace_first pat rep s = s.
Proof.
  induction s as [|c s IH]; intros Habsent.
  - cbn [replace_first].
    destruct (String.prefix pat "") eqn:Hp; [|reflexivity].
    destruct (prefix_split _ _ Hp) as (t & Ht).
    exfalso. apply (Habsent "" t). exact Ht.
  - cbn [replace_first].
    destruct (String.prefix pat (String c s)) eqn:Hp.
    + destruct (prefix_split _ _ Hp) as (t & Ht).
      exfalso. apply (Habsent "" t). exact Ht.
    + f_equal. apply IH. intros s1 s2 Heq.
      apply (Habsent (String c s1) s2). cbn. now rewrite Heq.
Qed.

Lemma prefix_app (pat t : string) : String.prefix pat (pat ++ t) = true.
Proof.
  induction pat as [|c pat IH]; [now destruct t|].
  cbn. now destruct (Ascii.ascii_dec c c).
Qed.

Lemma substring_after (pat t : string) :
  substring (String.length pat)
    (String.length (pat ++ t) - String.length pat) (pat ++ t) = t.
Proof.
  induction pat as [|c pat IH]; cbn.
  - rewrite Nat.sub_0_r. apply substring_all.
  - exact IH.
Qed.

Lemma replace_first_unfold (pat rep s : string) :
  replace_first pat rep s
  = if String.prefix pat s
    then rep ++ substring (String.length pat)
                  (String.length s - String.length pat) s
    else match s with
         | EmptyString => EmptyString
         | String c s' => String c (replace_first pat rep s')
         end.
Proof. destruct s; reflexivity. Qed.

Lemma replace_first_prefix (pat t : string) :
  replace_first pat "" (pat ++ t) = t.
Proof.
  rewrite replace_first_unfold, prefix_app, substring_after. reflexivity.
Qed.

(** X10. The credential check resolves the token that follows [Bearer ] in
    the authorization header; a non-empty header in which [Bearer ] does
    not occur at all is not refused but handed to the identity provider as
    it is. *)
Theorem X10_token_of_the_authorization_header :
  forall (B : Type) (w : World) (req : Request B),
    (forall token,
        authorization req = Some ("Bearer " ++ token) ->
        credential w req = getUser w token) /\
    (forall header,
        authorization req = Some header ->
        header <> "" ->
        (forall s1 s2, header <> s1 ++ "Bearer " ++ s2) ->
        credential w req = getUser w header).
Proof.
  intros B w req; split.
  - intros token Hauth. unfold credential. rewrite Hauth.
    change (present (Some ("Bearer " ++ token)))
      with (Some ("Bearer " ++ token)).
    cbv beta iota. now rewrite replace_first_prefix.
  - intros header Hauth Hne Habsent. unfold credential, present.
    rewrite Hauth.
    destruct (String.eqb header "") eqn:He;
      [apply String.eqb_eq in He; contradiction|].
    now rewrite replace_first_absent.
Qed.

Lemma X10_token_of_the_authorization_header_witness :
  credential sample_world
    {| method := "POST"; authorization := Some "Bearer valid-token";
       json := inr tt |}
  = getUser sample_world "valid-token" /\
  credential sample_world
    {| method := "POST"; authorization := Some "valid-token";
       json := inr tt |}
  = getUser sample_world "valid-token".
Proof.
  split.
  - apply (proj1 (X10_token_of_the_authorization_header unit sample_world
                    {| method := "POST";
                       authorization := Some "Bearer valid-token";
                       json := inr tt |}) "valid-token").
    reflexivity.
  - apply (proj2 (X10_token_of_the_authorization_header unit sample_world
                    {| method := "POST";
                       authorization := Some "valid-token";
                       json := inr tt |}) "valid-token").
    + reflexivity.
    + discriminate.
    + intros s1 s2 H.
      repeat (destruct s1 as [|? s1]; cbn in H;
              [discriminate H | injection H as _ H]).
      destruct s1; discriminate H.
Defined.

(** ** Alerts and the badges of the inventory page *)

Lemma generateAlert_zero_minimum (w : World) (item : InventoryItem)
  (prediction : Prediction) (cs : R) :
  current_stock item = Fin cs ->
  min_required item = Fin 0 ->
  0 <= cs ->
  generateAlert w item prediction = None.
Proof.
  intros Hcs Hmr Hpos. unfold generateAlert, stockPercentage.
  rewrite Hcs, Hmr.
  destruct (Req_dec_T cs 0) as [-> | Hne].
  - now rewrite div_zero_zero.
  - rewrite div_pos_zero by lra.
    cbn [JS.mul]. unfold JS.inf_times.
    rewrite Reqb_false by lra. rewrite Rltb_true by lra. reflexivity.
Qed.

(** X11. An item whose min_required is 0 never gets an alert from
    run-predictions, whatever its (non-negative) stock: the unguarded
    division yields NaN or +Infinity, and neither is below a threshold. *)
Theorem X11_zero_minimum_never_alerts :
  forall (w : World) (item : InventoryItem) (prediction : Prediction) (cs : R),
    current_stock item = Fin cs ->
    min_required item = Fin 0 ->
    0 <= cs ->
    (stockPercentage item = NaN \/ stockPercentage item = PInf) /\
    generateAlert w item prediction = None.
Proof.
  intros w item prediction cs Hcs Hmr Hpos. split.
  - unfold stockPercentage. rewrite Hcs, Hmr.
    destruct (Req_dec_T cs 0) as [-> | Hne].
    + left. now rewrite div_zero_zero.
    + right. rewrite div_pos_zero by lra.
      cbn [JS.mul]. unfold JS.inf_times.
      rewrite Reqb_false by lra. now rewrite Rltb_true by lra.
  - now apply (generateAlert_zero_minimum w item prediction cs).
Qed.

Lemma X11_zero_minimum_never_alerts_witness :
  let item := sample_item 0 0 500 3 8 20 in
  (stockPercentage item = NaN \/ stockPercentage item = PInf) /\
  generateAlert sample_world item (predictDemand item) = None.
Proof.
  apply (X11_zero_minimum_never_alerts sample_world
           (sample_item 0 0 500 3 8 20) _ 0); try reflexivity; lra.
Defined.

(** X12. With non-negative stock and minimum, run-predictions raises an
    alert only for an item that the inventory page badges Critical (stock
    below half the minimum): an item badged Low Stock or Normal gets
    none. *)
Theorem X12_alerts_only_for_critical_badges :
  forall (w : World) (item : InventoryItem) (prediction : Prediction)
         (cs mr : R),
    current_stock item = Fin cs ->
    min_required item = Fin mr ->
    0 <= cs -> 0 <= mr ->
    generateAlert w item prediction <> None ->
    getStockStatus item = Critical.
Proof.
  intros w item prediction cs mr Hcs Hmr Hcs0 Hmr0 Halert.
  destruct (Req_dec_T mr 0) as [-> | Hne].
  - exfalso. apply Halert.
    now apply (generateAlert_zero_minimum w item prediction cs).
  - assert (Hpos : 0 < mr) by lra.
    pose proof (stockPercentage_fin item cs mr Hcs Hmr Hpos) as Hpct.
    destruct (generateAlert_bands w item prediction _ Hpct)
      as (_ & _ & Hnone).
    destruct (Rlt_dec (cs / mr * 100) 20) as [Hlt | Hge];
      [|exfalso; apply Halert, Hnone; lra].
    assert (Hcs_eq : cs = cs / mr * mr) by (field; lra).
    assert (Hhalf : cs < mr * 0.5) by nra.
    unfold getStockStatus. rewrite Hcs, Hmr.
    cbn [JS.mul JS.lt]. now rewrite Rltb_true.
Qed.

Lemma X12_alerts_only_for_critical_badges_witness :
  getStockStatus scarce_item = Critical.
Proof.
  apply (X12_alerts_only_for_critical_badges sample_world scarce_item
           (predictDemand scarce_item) 10 200); try reflexivity; try lra.
  destruct (generateAlert_bands sample_world scarce_item
              (predictDemand scarce_item) (10 / 200 * 100)) as (Hc & _).
  - apply stockPercentage_fin; try reflexivity; lra.
  - destruct Hc as (a & Ha & _); [lra|]. rewrite Ha. discriminate.
Defined.

(** ** The dashboard figures *)

Lemma filter_length_le_of_imp {A} (f g : A -> bool) (l : list A) :
  (forall x, In x l -> f x = true -> g x = true) ->
  (List.length (filter f l) <= List.length (filter g l))%nat.
Proof.
  induction l as [|a l IH]; intros Himp; [cbn; lia|].
  assert (IH' := IH (fun x Hx => Himp x (or_intror Hx))).
  cbn [filter]. destruct (f a) eqn:Hf.
  - rewrite (Himp a (or_introl eq_refl) Hf). cbn; lia.
  - destruct (g a); cbn; lia.
Qed.

Lemma filter_ext_in_length {A} (f g : A -> bool) (l : list A) :
  (forall x, In x l -> f x = g x) ->
  List.length (filter f l) = List.length (filter g l).
Proof.
  intros Heq. now rewrite (filter_ext_in f g l Heq).
Qed.

(** X13. On rows with finite stock and a finite, non-negative minimum, the
    dashboard's figures satisfy criticalItems <= lowStockItems <=
    totalItems, criticalItems counts the rows the inventory page badges
    Critical and lowStockItems the rows it does not badge Normal. *)
Theorem X13_dashboard_counts_agree_with_badges :
  forall (w : World) (parseFloat : string -> number)
         (items : list InventoryItem) (stats : InventoryStats),
    (forall item, In item items ->
       exists cs mr, current_stock item = Fin cs /\
                     min_required item = Fin mr /\ 0 <= mr) ->
    let s := fetchStats w parseFloat (inr items) stats in
    (criticalItems s <= lowStockItems s <= totalItems s)%nat /\
    criticalItems s
    = List.length
        (filter (fun i => match getStockStatus i with
                          | Critical => true
                          | _ => false
                          end) items) /\
    lowStockItems s
    = List.length
        (filter (fun i => match getStockStatus i with
                          | Normal => false
                          | _ => true
                          end) items).
Proof.
  intros w parseFloat items stats Hrows; cbv zeta.
  cbn [fetchStats criticalItems lowStockItems totalItems].
  assert (Himp : forall item, In item items ->
            (current_stock item <? min_required item * Fin 0.5)%js = true ->
            (current_stock item <? min_required item)%js = true).
  { intros item Hin. destruct (Hrows item Hin) as (cs & mr & -> & -> & Hmr).
    cbn [JS.mul JS.lt]. unfold JS.Rltb.
    destruct (Rlt_dec cs (mr * 0.5)); [|discriminate].
    intros _. destruct (Rlt_dec cs mr); [reflexivity | lra]. }
  repeat split.
  - now apply filter_length_le_of_imp.
  - apply filter_length_bound.
  - apply filter_ext_in_length. intros item _. unfold getStockStatus.
    destruct (current_stock item <? min_required item * Fin 0.5)%js;
      [reflexivity|].
    now destruct (current_stock item <? min_required item)%js.
  - apply filter_ext_in_length. intros item Hin. unfold getStockStatus.
    destruct (current_stock item <? min_required item * Fin 0.5)%js eqn:Hc.
    + now apply Himp.
    + now destruct (current_stock item <? min_required item)%js.
Qed.

Lemma X13_dashboard_counts_agree_with_badges_witness :
  let s := fetchStats sample_world (fun _ => Fin 3)
             (inr [scarce_item; ventilator])
             {| totalItems := 0; lowStockItems := 0; totalValue := Fin 0;
                criticalItems := 0 |} in
  (criticalItems s <= lowStockItems s <= totalItems s)%nat /\
  criticalItems s
  = List.length
      (filter (fun i => match getStockStatus i with
                        | Critical => true
                        | _ => false
                        end) [scarce_item; ventilator]) /\
  lowStockItems s
  = List.length
      (filter (fun i => match getStockStatus i with
                        | Normal => false
                        | _ => true
                        end) [scarce_item; ventilator]).
Proof.
  apply (X13_dashboard_counts_agree_with_badges sample_world (fun _ => Fin 3)
           [scarce_item; ventilator]).
  intros item [<- | [<- | []]].
  - exists 10, 200. repeat split; lra.
  - exists 2487, 656. repeat split; lra.
Defined.

(** ** More on the demand estimator *)

(** X14. On finite fields both inventory_shortfall and replenishment_needs
    are non-negative; the shortfall is zero exactly when the stock reaches
    min_required, and the replenishment need is zero exactly when the stock
    covers usage times lead time. *)
Theorem X14_shortfall_and_replenishment_are_clamped :
  forall (item : InventoryItem) (a l c m : R),
    avg_usage_per_day item = Fin a ->
    restock_lead_time item = Fin l ->
    current_stock item = Fin c ->
    min_required item = Fin m ->
    exists s r,
      inventory_shortfall (predictDemand item) = Fin s /\
      replenishment_needs (predictDemand item) = Fin r /\
      0 <= s /\ 0 <= r /\
      (s = 0 <-> m <= c) /\ (0 < s -> s = m - c) /\
      (r = 0 <-> a * l <= c) /\ (0 < r -> r = a * l - c).
Proof.
  intros item a l c m Ha Hl Hc Hm.
  exists (Rmax 0 (m - c)), (Rmax 0 (a * l - c)).
  unfold predictDemand;
    cbn [inventory_shortfall replenishment_needs].
  rewrite Ha, Hl, Hc, Hm.
  change (Fin a * Fin l)%js with (Fin (a * l)).
  rewrite !sub_fin, !max0_fin.
  repeat split; unfold Rmax; real_cases; lra.
Qed.

Lemma X14_shortfall_and_replenishment_are_clamped_witness :
  exists s r,
    inventory_shortfall (predictDemand scarce_item) = Fin s /\
    replenishment_needs (predictDemand scarce_item) = Fin r /\
    0 <= s /\ 0 <= r /\
    (s = 0 <-> 200 <= 10) /\ (0 < s -> s = 200 - 10) /\
    (r = 0 <-> 8 * 20 <= 10) /\ (0 < r -> r = 8 * 20 - 10).
Proof.
  apply (X14_shortfall_and_replenishment_are_clamped scarce_item 8 20 10 200);
    reflexivity.
Defined.

(** X15. For positive usage and lead time the contribution reported for
    avg_usage_per_day is 0.4 / restock_lead_time and the one reported for
    restock_lead_time is 0.3 / avg_usage_per_day: each depends on the other
    feature only.  When either is zero the divisor falls back to 1 and the
    two contributions are 0.4 * usage and 0.3 * lead time. *)
Theorem X15_demand_contributions :
  forall (item : InventoryItem) (a l : R),
    avg_usage_per_day item = Fin a ->
    restock_lead_time item = Fin l ->
    let fc := feature_contributions (predictDemand item) in
    (0 < a -> 0 < l ->
     fc_avg_usage_per_day fc = Fin (0.4 / l) /\
     fc_restock_lead_time fc = Fin (0.3 / a)) /\
    (a = 0 \/ l = 0 ->
     fc_avg_usage_per_day fc = Fin (0.4 * a) /\
     fc_restock_lead_time fc = Fin (0.3 * l)).
Proof.
  intros item a l Ha Hl; cbv zeta.
  unfold predictDemand;
    cbn [feature_contributions fc_avg_usage_per_day fc_restock_lead_time].
  rewrite Ha, Hl.
  change (Fin a * Fin l)%js with (Fin (a * l)).
  rewrite !or_one_fin, !div_fin by apply or_one_nonzero.
  cbn [JS.mul]. unfold or_one. split.
  - intros Hapos Hlpos.
    destruct (Req_dec_T (a * l) 0) as [Hz | Hnz]; [nra|].
    split; f_equal; field; lra.
  - intros Hzero.
    destruct (Req_dec_T (a * l) 0) as [Hz | Hnz].
    + split; f_equal; lra.
    + exfalso. apply Hnz. destruct Hzero as [-> | ->]; lra.
Qed.

Lemma X15_demand_contributions_witness :
  fc_avg_usage_per_day (feature_contributions (predictDemand ventilator))
  = Fin (0.4 / 12) /\
  fc_restock_lead_time (feature_contributions (predictDemand ventilator))
  = Fin (0.3 / 55).
Proof.
  apply (proj1 (X15_demand_contributions ventilator 55 12 eq_refl eq_refl));
    lra.
Defined.

(** X16. A usage that is NaN (what a field missing from single_prediction
    is in arithmetic) is not turned into zero: estimated_demand and
    replenishment_needs are NaN, because Math.max(0, NaN) is NaN, and so is
    the usage contribution, while the shortfall is computed as usual and
    the lead-time contribution falls back to 0.3 * lead time. *)
Theorem X16_missing_usage_gives_NaN :
  forall (item : InventoryItem) (l c m : R),
    avg_usage_per_day item = NaN ->
    restock_lead_time item = Fin l ->
    current_stock item = Fin c ->
    min_required item = Fin m ->
    let p := predictDemand item in
    estimated_demand p = NaN /\
    replenishment_needs p = NaN /\
    inventory_shortfall p = Fin (Rmax 0 (m - c)) /\
    fc_avg_usage_per_day (feature_contributions p) = NaN /\
    fc_restock_lead_time (feature_contributions p) = Fin (0.3 * l).
Proof.
  intros item l c m Ha Hl Hc Hm; cbv zeta.
  unfold predictDemand;
    cbn [estimated_demand replenishment_needs inventory_shortfall
         feature_contributions fc_avg_usage_per_day fc_restock_lead_time].
  rewrite Ha, Hl, Hc, Hm.
  rewrite sub_fin, max0_fin.
  cbn [JS.mul JS.sub JS.add JS.neg JS.max JS.or JS.truthy].
  rewrite div_fin by lra.
  cbn [JS.mul JS.div].
  repeat split. f_equal; lra.
Qed.

Lemma X16_missing_usage_gives_NaN_witness :
  let item :=
    demo_item
      {| sp_item_name := "Gauze"; sp_item_type := "Consumable";
         sp_current_stock := Fin 10; sp_min_required := Fin 40;
         sp_max_capacity := Fin 100; sp_avg_usage_per_day := NaN;
         sp_restock_lead_time := Fin 7; sp_unit_cost := Fin 2;
         sp_vendor_name := None |} in
  estimated_demand (predictDemand item) = NaN /\
  replenishment_needs (predictDemand item) = NaN /\
  inventory_shortfall (predictDemand item) = Fin (Rmax 0 (40 - 10)) /\
  fc_avg_usage_per_day (feature_contributions (predictDemand item)) = NaN /\
  fc_restock_lead_time (feature_contributions (predictDemand item))
  = Fin (0.3 * 7).
Proof.
  cbv zeta.
  apply (X16_missing_usage_gives_NaN _ 7 10 40); reflexivity.
Defined.

(** ** More on the cost optimizer *)

Lemma reorderPoint_fin (item : InventoryItem) (a l : R) :
  avg_usage_per_day item = Fin a ->
  restock_lead_time item = Fin l ->
  0 <= l ->
  safetyStock (optimizeItem item) = Fin (1.65 * (a * 0.2) * sqrt l) /\
  reorderPoint (optimizeItem item) = Fin (a * l + 1.65 * (a * 0.2) * sqrt l).
Proof.
  intros Ha Hl Hl0. unfold optimizeItem; cbn [safetyStock reorderPoint].
  rewrite Ha, Hl. unfold calculateReorderPoint.
  rewrite safetyStock_fin by assumption. now split.
Qed.

(** X17. An optimal_order_quantity of 0 makes the cost non-finite, since
    the division by it is unguarded: with zero usage (and a positive unit
    cost) eoq and optimal_order_quantity are 0 and estimated_annual_cost is
    NaN; with zero capacity (and positive usage and unit cost) the cost is
    +Infinity. *)
Theorem X17_zero_order_quantity_breaks_the_cost :
  forall (item : InventoryItem) (a l u cap : R),
    avg_usage_per_day item = Fin a ->
    restock_lead_time item = Fin l ->
    unit_cost item = Fin u ->
    max_capacity item = Fin cap ->
    0 <= l -> 0 < u ->
    let o := optimizeItem item in
    (a = 0 -> 0 <= cap ->
     eoq o = Fin 0 /\ optimalOrderQty o = Fin 0 /\
     numberOfOrders o = NaN /\ estimatedAnnualCost o = NaN) /\
    (0 < a -> cap = 0 ->
     optimalOrderQty o = Fin 0 /\
     numberOfOrders o = PInf /\ estimatedAnnualCost o = PInf).
Proof.
  intros item a l u cap Ha Hl Hu Hcap Hl0 Hu0; cbv zeta.
  destruct (reorderPoint_fin item a l Ha Hl Hl0) as [Hss _].
  assert (Hcost : forall q,
            optimalOrderQty (optimizeItem item) = Fin q ->
            estimatedAnnualCost (optimizeItem item)
            = ((Fin (a * 365) / Fin q) * Fin 50
               + (Fin q / Fin 2 + Fin (1.65 * (a * 0.2) * sqrt l))
                 * Fin (u * 0.25)
               + Fin (a * 365 * u))%js).
  { intros q Hq.
    change (estimatedAnnualCost (optimizeItem item))
      with ((avg_usage_per_day item * Fin 365
               / optimalOrderQty (optimizeItem item) * Fin 50
             + (optimalOrderQty (optimizeItem item) / Fin 2
                + safetyStock (optimizeItem item))
               * (unit_cost item * Fin 0.25)
             + avg_usage_per_day item * Fin 365 * unit_cost item)%js).
    now rewrite Hq, Hss, Ha, Hu. }
  assert (Horders : forall q,
            optimalOrderQty (optimizeItem item) = Fin q ->
            numberOfOrders (optimizeItem item) = (Fin (a * 365) / Fin q)%js).
  { intros q Hq.
    change (numberOfOrders (optimizeItem item))
      with (avg_usage_per_day item * Fin 365
            / optimalOrderQty (optimizeItem item))%js.
    now rewrite Hq, Ha. }
  split.
  - intros -> Hcap0.
    assert (He : eoq (optimizeItem item) = Fin 0).
    { rewrite (eoq_optimizeItem item 0 u Ha Hu).
      rewrite calculateEOQ_fin by lra.
      f_equal. replace (2 * (0 * 365) * 50 / (u * 0.25)) with 0
        by (field; lra).
      apply sqrt_0. }
    assert (Hq : optimalOrderQty (optimizeItem item) = Fin 0).
    { change (optimalOrderQty (optimizeItem item))
        with (JS.min (JS.ceil (eoq (optimizeItem item))) (max_capacity item)).
      rewrite He, Hcap. cbn [JS.ceil].
      replace (Zceil 0) with 0%Z by (symmetry; apply Zceil_eq; lra).
      rewrite min_fin. f_equal. unfold Rmin. real_cases; lra. }
    repeat split; try assumption.
    + rewrite (Horders 0 Hq). replace (0 * 365) with 0 by lra.
      apply div_zero_zero.
    + rewrite (Hcost 0 Hq). replace (0 * 365) with 0 by lra.
      now rewrite div_zero_zero.
  - intros Hapos ->.
    assert (He : eoq (optimizeItem item)
                 = Fin (sqrt (2 * (a * 365) * 50 / (u * 0.25)))).
    { rewrite (eoq_optimizeItem item a u Ha Hu).
      apply calculateEOQ_fin; lra. }
    assert (Hepos : 0 < sqrt (2 * (a * 365) * 50 / (u * 0.25))).
    { apply sqrt_lt_R0. unfold Rdiv.
      apply Rmult_lt_0_compat; [lra | apply Rinv_0_lt_compat; lra]. }
    assert (Hq : optimalOrderQty (optimizeItem item) = Fin 0).
    { change (optimalOrderQty (optimizeItem item))
        with (JS.min (JS.ceil (eoq (optimizeItem item))) (max_capacity item)).
      rewrite He, Hcap. cbn [JS.ceil]. rewrite min_fin. f_equal.
      pose proof (Zceil_pos _ Hepos). unfold Rmin. real_cases; lra. }
    repeat split; try assumption.
    + rewrite (Horders 0 Hq). apply div_pos_zero; lra.
    + rewrite (Hcost 0 Hq). rewrite div_pos_zero by lra.
      rewrite (div_fin 0 2) by lra.
      cbn [JS.mul JS.add]. unfold JS.inf_times.
      rewrite Reqb_false by lra. now rewrite Rltb_true by lra.
Qed.

Lemma X17_zero_order_quantity_breaks_the_cost_witness :
  let o := optimizeItem (sample_item 10 5 100 4 0 7) in
  eoq o = Fin 0 /\ optimalOrderQty o = Fin 0 /\
  numberOfOrders o = NaN /\ estimatedAnnualCost o = NaN.
Proof.
  apply (proj1 (X17_zero_order_quantity_breaks_the_cost
                  (sample_item 10 5 100 4 0 7) 0 7 4 100
                  eq_refl eq_refl eq_refl eq_refl ltac:(lra) ltac:(lra)));
    [reflexivity | lra].
Defined.

Lemma le_fin_ceil (x y : R) :
  (Fin x <=? Fin y)%js = true -> (Fin x <=? JS.ceil (Fin y))%js = true.
Proof.
  cbn [JS.le JS.ceil]. unfold JS.Rleb.
  destruct (Rle_dec x y) as [Hle|]; [intros _ | discriminate].
  destruct (Zceil_bound y) as [_ Hub].
  destruct (Rle_dec x (IZR (Zceil y))); [reflexivity | lra].
Qed.

(** X18. The cost page recomputes should_reorder from the stored
    reorder_point, which is the ceiling: for an item with finite stock,
    usage and lead time whose inventory row is unchanged, the page's flag
    is set whenever the handler's was. *)
Theorem X18_page_flag_follows_handler_flag :
  forall (item : InventoryItem) (a l cs : R),
    avg_usage_per_day item = Fin a ->
    restock_lead_time item = Fin l ->
    current_stock item = Fin cs ->
    0 <= l ->
    let o := optimizeItem item in
    oe_should_reorder (optimizationEntry item o) = true ->
    fo_should_reorder (formatOptimization (costRow item o) (Some item)) = true.
Proof.
  intros item a l cs Ha Hl Hcs Hl0; cbv zeta.
  destruct (reorderPoint_fin item a l Ha Hl Hl0) as [_ Hrp].
  cbn [optimizationEntry oe_should_reorder formatOptimization
       fo_should_reorder costRow co_reorder_point].
  rewrite Hrp, Hcs. apply le_fin_ceil.
Qed.

Lemma X18_page_flag_follows_handler_flag_witness :
  fo_should_reorder
    (formatOptimization (costRow scarce_item (optimizeItem scarce_item))
       (Some scarce_item)) = true.
Proof.
  apply (X18_page_flag_follows_handler_flag scarce_item 8 20 10
           eq_refl eq_refl eq_refl ltac:(lra)).
  destruct (reorderPoint_fin scarce_item 8 20 eq_refl eq_refl ltac:(lra))
    as [_ Hrp].
  cbn [optimizationEntry oe_should_reorder]. rewrite Hrp.
  apply le_fin. pose proof (sqrt_pos 20). lra.
Defined.

(** X19. With usage held fixed, a dearer item never has a larger eoq: for
    positive unit costs u1 <= u2 and non-negative usage, eoq at u2 <= eoq at
    u1. *)
Theorem X19_eoq_antitone_in_unit_cost :
  forall (item1 item2 : InventoryItem) (a u1 u2 : R),
    avg_usage_per_day item1 = Fin a ->
    avg_usage_per_day item2 = Fin a ->
    unit_cost item1 = Fin u1 ->
    unit_cost item2 = Fin u2 ->
    0 <= a -> 0 < u1 -> u1 <= u2 ->
    (eoq (optimizeItem item2) <=? eoq (optimizeItem item1))%js = true.
Proof.
  intros item1 item2 a u1 u2 Ha1 Ha2 Hu1 Hu2 Ha0 Hu1pos Hle.
  rewrite (eoq_optimizeItem item1 a u1 Ha1 Hu1).
  rewrite (eoq_optimizeItem item2 a u2 Ha2 Hu2).
  rewrite !calculateEOQ_fin by lra.
  apply le_fin, sqrt_le_1_alt. unfold Rdiv.
  apply Rmult_le_compat_l; [lra|].
  apply Rinv_le_contravar; lra.
Qed.

Lemma X19_eoq_antitone_in_unit_cost_witness :
  (eoq (optimizeItem (sample_item 10 5 100 9 3 7))
   <=? eoq (optimizeItem (sample_item 10 5 100 2 3 7)))%js = true.
Proof.
  apply (X19_eoq_antitone_in_unit_cost _ _ 3 2 9); try reflexivity; lra.
Defined.

(** X20. The eoq follows the square-root law: with a positive unit cost,
    four times the usage gives twice the eoq, and four times the unit cost
    gives half of it. *)
Theorem X20_eoq_square_root_law :
  forall (item item4 : InventoryItem) (a u : R),
    avg_usage_per_day item = Fin a ->
    unit_cost item = Fin u ->
    0 <= a -> 0 < u ->
    exists e,
      eoq (optimizeItem item) = Fin e /\
      (avg_usage_per_day item4 = Fin (4 * a) -> unit_cost item4 = Fin u ->
       eoq (optimizeItem item4) = Fin (2 * e)) /\
      (avg_usage_per_day item4 = Fin a -> unit_cost item4 = Fin (4 * u) ->
       eoq (optimizeItem item4) = Fin (e / 2)).
Proof.
  intros item item4 a u Ha Hu Ha0 Hu0.
  exists (sqrt (2 * (a * 365) * 50 / (u * 0.25))).
  split.
  { rewrite (eoq_optimizeItem item a u Ha Hu). apply calculateEOQ_fin; lra. }
  assert (Hx : 0 <= 2 * (a * 365) * 50 / (u * 0.25))
    by (apply Rdiv_nonneg; lra).
  assert (H4 : sqrt 4 = 2).
  { replace 4 with (2 * 2) by lra. apply sqrt_square; lra. }
  split; intros Ha4 Hu4;
    rewrite (eoq_optimizeItem item4 _ _ Ha4 Hu4);
    rewrite calculateEOQ_fin by lra; f_equal.
  - replace (2 * (4 * a * 365) * 50 / (u * 0.25))
      with (4 * (2 * (a * 365) * 50 / (u * 0.25))) by (field; lra).
    rewrite sqrt_mult by lra. now rewrite H4.
  - replace (2 * (a * 365) * 50 / (u * 0.25))
      with (4 * (2 * (a * 365) * 50 / (4 * u * 0.25))) by (field; lra).
    rewrite sqrt_mult; [|lra | apply Rdiv_nonneg; lra].
    rewrite H4. field.
Qed.

Lemma X20_eoq_square_root_law_witness :
  exists e,
    eoq (optimizeItem (sample_item 10 5 100 2 3 7)) = Fin e /\
    eoq (optimizeItem (sample_item 10 5 100 2 12 7)) = Fin (2 * e).
Proof.
  destruct (X20_eoq_square_root_law (sample_item 10 5 100 2 3 7)
              (sample_item 10 5 100 2 12 7) 3 2
              eq_refl eq_refl ltac:(lra) ltac:(lra)) as (e & He & H4 & _).
  exists e. split; [exact He|].
  apply H4; [cbn; f_equal; lra | reflexivity].
Defined.

(** X21. For non-negative usage and lead time the safety stock is
    non-negative, the reorder point is at least the expected demand over
    the lead time, should_reorder is set whenever the stock does not exceed
    that demand, and the stored reorder_point is an integer that exceeds
    the computed one by less than 1. *)
Theorem X21_reorder_point_bounds :
  forall (item : InventoryItem) (a l cs : R),
    avg_usage_per_day item = Fin a ->
    restock_lead_time item = Fin l ->
    current_stock item = Fin cs ->
    0 <= a -> 0 <= l ->
    let o := optimizeItem item in
    exists (ss rp : R) (stored : Z),
      safetyStock o = Fin ss /\
      reorderPoint o = Fin rp /\
      co_reorder_point (costRow item o) = Fin (IZR stored) /\
      0 <= ss /\ a * l <= rp /\
      rp <= IZR stored < rp + 1 /\
      (cs <= a * l -> oe_should_reorder (optimizationEntry item o) = true).
Proof.
  intros item a l cs Ha Hl Hcs Ha0 Hl0; cbv zeta.
  destruct (reorderPoint_fin item a l Ha Hl Hl0) as [Hss Hrp].
  pose proof (sqrt_pos l) as Hsqrt.
  assert (Hss0 : 0 <= 1.65 * (a * 0.2) * sqrt l) by nra.
  exists (1.65 * (a * 0.2) * sqrt l), (a * l + 1.65 * (a * 0.2) * sqrt l),
    (Zceil (a * l + 1.65 * (a * 0.2) * sqrt l)).
  pose proof (Zceil_bound (a * l + 1.65 * (a * 0.2) * sqrt l)) as Hceil.
  repeat split; try assumption; try lra.
  - cbn [costRow co_reorder_point]. now rewrite Hrp.
  - intros Hlow. cbn [optimizationEntry oe_should_reorder].
    rewrite Hrp, Hcs. apply le_fin; lra.
Qed.

Lemma X21_reorder_point_bounds_witness :
  let o := optimizeItem scarce_item in
  exists (ss rp : R) (stored : Z),
    safetyStock o = Fin ss /\
    reorderPoint o = Fin rp /\
    co_reorder_point (costRow scarce_item o) = Fin (IZR stored) /\
    0 <= ss /\ 8 * 20 <= rp /\
    rp <= IZR stored < rp + 1 /\
    (10 <= 8 * 20 ->
     oe_should_reorder (optimizationEntry scarce_item o) = true).
Proof.
  apply (X21_reorder_point_bounds scarce_item 8 20 10); try reflexivity; lra.
Defined.

(** ** A successful run of seed-sample-data *)

(** Everything a run of the seed does when the store accepts every call. *)
Lemma seed_sample_data_run {B} (w : World) (req : Request B) (st : Store) :
  method req <> "OPTIONS" ->
  (forall c, db_error w c = None) ->
  let insertedItems := fst (upsert_inventory w inventoryItems st) in
  let st1 := snd (upsert_inventory w inventoryItems st) in
  let modelData := fst (upsert_model w st1) in
  let lowStockItems :=
    filter (fun item => (current_stock item <? min_required item)%js)
      insertedItems in
  exists st',
    seed_sample_data w req st
    = ({| status := 200;
          body := SeedBody "Sample data seeded successfully"
                    (List.length insertedItems) (List.length insertedItems)
                    (List.length lowStockItems) |}, st') /\
    inventory_items st' = inventory_items st1 /\
    model_registry st' = model_registry (snd (upsert_model w st1)) /\
    prediction_history st'
    = (prediction_history st
       ++ mapi (seed_history_row w modelData) 0 insertedItems)%list /\
    predictions st'
    = upsert_prediction_rows (map seed_dashboard_row insertedItems)
        (predictions st) /\
    alerts_history st'
    = (alerts_history st ++ map (seed_alert w) lowStockItems)%list /\
    cost_optimization st' = cost_optimization st.
Proof.
  intros Hm Hdb; cbv zeta.
  unfold seed_sample_data. rewrite (not_preflight req Hm).
  unfold catch500, bind.
  rewrite !orThrow_db_call by apply Hdb.
  cbv beta iota.
  assert (Hframe1 : forall st0,
            prediction_history (snd (upsert_inventory w inventoryItems st0))
            = prediction_history st0 /\
            predictions (snd (upsert_inventory w inventoryItems st0))
            = predictions st0 /\
            alerts_history (snd (upsert_inventory w inventoryItems st0))
            = alerts_history st0 /\
            cost_optimization (snd (upsert_inventory w inventoryItems st0))
            = cost_optimization st0).
  { intros st0. unfold upsert_inventory.
    destruct (upsert_inventory_rows _ _ _ _) as [[t n] out]. now repeat split. }
  assert (Hframe2 : forall st0,
            inventory_items (snd (upsert_model w st0)) = inventory_items st0 /\
            prediction_history (snd (upsert_model w st0))
            = prediction_history st0 /\
            predictions (snd (upsert_model w st0)) = predictions st0 /\
            alerts_history (snd (upsert_model w st0)) = alerts_history st0 /\
            cost_optimization (snd (upsert_model w st0))
            = cost_optimization st0).
  { intros st0. unfold upsert_model.
    destruct (upsert_row _ _ _ _) as [t x]. now repeat split. }
  destruct (Hframe1 st) as (H1h & H1p & H1a & H1c).
  destruct (Hframe2 (snd (upsert_inventory w inventoryItems st)))
    as (H2i & H2h & H2p & H2a & H2c).
  destruct (Nat.ltb 0 _) eqn:Hlow.
  - rewrite orThrow_db_call by apply Hdb. cbv beta iota.
    eexists; split; [reflexivity|].
    cbn [snd insert_alerts upsert_predictions insert_history
         inventory_items model_registry prediction_history predictions
         alerts_history cost_optimization].
    rewrite H2i, H2h, H2p, H2a, H2c, H1h, H1p, H1a, H1c. now repeat split.
  - unfold ret at 1. cbv beta iota.
    eexists; split; [reflexivity|].
    cbn [snd insert_alerts upsert_predictions insert_history
         inventory_items model_registry prediction_history predictions
         alerts_history cost_optimization].
    rewrite H2i, H2h, H2p, H2a, H2c, H1h, H1p, H1a, H1c.
    apply Nat.ltb_ge in Hlow.
    destruct (filter _ _) as [|x l] eqn:Hf; [|cbn in Hlow; lia].
    cbn [map]. rewrite app_nil_r. now repeat split.
Qed.

Lemma upsert_row_result {A} (conflicts : A -> bool) (update : A -> A)
  (fresh : A) (table : list A) :
  snd (upsert_row conflicts update fresh table) = fresh \/
  exists x, In x table /\ conflicts x = true /\
            snd (upsert_row conflicts update fresh table) = update x.
Proof.
  induction table as [|r table IH]; cbn [upsert_row]; [now left|].
  destruct (conflicts r) eqn:Hc.
  - right. exists r. repeat split; [now left | assumption].
  - destruct (upsert_row conflicts update fresh table) as [t x].
    cbn [snd] in *. destruct IH as [-> | (x0 & Hin & Hc0 & ->)];
      [now left | right].
    exists x0. repeat split; [now right | assumption].
Qed.

(** The rows an inventory upsert returns are the given rows, each under
    some key. *)
Lemma upsert_inventory_rows_out (w : World) (rows : list SeedItem) :
  forall (table : list InventoryItem) (next : nat),
  exists keys,
    List.length keys = List.length rows /\
    snd (upsert_inventory_rows w rows table next)
    = map (fun kr => with_key (fst kr) (snd kr)) (combine keys rows).
Proof.
  induction rows as [|r rows IH]; intros table next.
  - now exists [].
  - cbn [upsert_inventory_rows].
    pose proof (upsert_row_result
                  (fun x => String.eqb (item_name x) (si_item_name r))
                  (fun x => with_key (id x) r) (with_key (uuid w next) r)
                  table) as Hres.
    destruct (upsert_row _ _ _ table) as [table1 stored].
    cbn [snd] in Hres.
    match goal with
    | |- context [upsert_inventory_rows w rows table1 ?n] =>
        destruct (IH table1 n) as (keys & Hlen & Hout);
        destruct (upsert_inventory_rows w rows table1 n) as [[t2 n2] out]
    end.
    cbn [snd] in Hout |- *.
    destruct Hres as [-> | (x & _ & _ & ->)].
    + exists (uuid w next :: keys). cbn. now rewrite Hlen, Hout.
    + exists (id x :: keys). cbn. now rewrite Hlen, Hout.
Qed.

Lemma upsert_inventory_out (w : World) (rows : list SeedItem) (st : Store) :
  fst (upsert_inventory w rows st)
  = snd (upsert_inventory_rows w rows (inventory_items st) (next_uuid st)).
Proof.
  unfold upsert_inventory.
  now destruct (upsert_inventory_rows _ _ _ _) as [[t n] out].
Qed.

(** Decide every comparison of two given reals left in the goal. *)
Ltac decide_Rltb :=
  repeat match goal with
    | |- context [JS.Rltb ?a ?b] =>
        first [ rewrite (Rltb_true a b) by lra
              | rewrite (Rltb_false a b) by lra ]
    end.

(** X22. When the store accepts every call, the seed answers any request
    that is not a pre-flight with 200 and the counts 8, 8 and 1, whatever
    the store held: it appends eight prediction_history rows and one alert,
    a low_stock warning for Oxygen Tanks, the only catalog item below its
    minimum. *)
Theorem X22_seed_reports_eight_items_and_one_warning :
  forall (B : Type) (w : World) (req : Request B) (st : Store),
    method req <> "OPTIONS" ->
    (forall c, db_error w c = None) ->
    exists alert,
      fst (seed_sample_data w req st)
      = {| status := 200;
           body := SeedBody "Sample data seeded successfully" 8 8 1 |} /\
      alerts_history (snd (seed_sample_data w req st))
      = (alerts_history st ++ [alert])%list /\
      alert_type alert = "low_stock" /\
      severity alert = "warning" /\
      title alert = "Low Stock Alert: Oxygen Tanks" /\
      List.length (prediction_history (snd (seed_sample_data w req st)))
      = (List.length (prediction_history st) + 8)%nat.
Proof.
  intros B w req st Hm Hdb.
  destruct (seed_sample_data_run w req st Hm Hdb)
    as (st' & Hrun & _ & _ & Hh & _ & Ha & _).
  rewrite Hrun; cbn [fst snd]. rewrite Ha, Hh.
  rewrite upsert_inventory_out.
  destruct (upsert_inventory_rows_out w inventoryItems (inventory_items st)
              (next_uuid st)) as (keys & Hlen & ->).
  change (List.length inventoryItems) with 8%nat in Hlen.
  do 8 (destruct keys as [|? keys]; [discriminate Hlen|]).
  destruct keys; [|discriminate Hlen].
  cbn [inventoryItems combine map fst snd filter with_key current_stock
       min_required si_current_stock si_min_required JS.lt List.length].
  decide_Rltb.
  cbn [filter map List.length]. eexists. split; [reflexivity|].
  split; [reflexivity|].
  cbn [seed_alert alert_type severity title current_stock min_required
       item_name with_key si_item_name si_current_stock si_min_required
       JS.mul JS.lt].
  decide_Rltb. repeat split.
  rewrite length_app. reflexivity.
Qed.

Lemma X22_seed_reports_eight_items_and_one_warning_witness :
  exists alert,
    fst (seed_sample_data sample_world (anonymous_request "POST") empty_store)
    = {| status := 200;
         body := SeedBody "Sample data seeded successfully" 8 8 1 |} /\
    alerts_history
      (snd (seed_sample_data sample_world (anonymous_request "POST")
              empty_store))
    = [alert] /\
    alert_type alert = "low_stock" /\
    severity alert = "warning" /\
    title alert = "Low Stock Alert: Oxygen Tanks" /\
    List.length
      (prediction_history
         (snd (seed_sample_data sample_world (anonymous_request "POST")
                 empty_store)))
    = 8%nat.
Proof.
  apply (X22_seed_reports_eight_items_and_one_warning unit sample_world
           (anonymous_request "POST") empty_store).
  - discriminate.
  - reflexivity.
Defined.

(** ** Upserts *)

Section UpsertRow.

Context {A : Type} (conflicts : A -> bool) (update : A -> A) (fresh : A).



Hypothesis update_conflicts :
  forall x, conflicts x = true -> conflicts (update x) = true.
Hypothesis fresh_conflicts : conflicts fresh = true.




End UpsertRow.

(** ** Seeding a second time *)













(** X24. A failure of the seed is not rolled back.  When the first call,
    the inventory upsert, is rejected the answer is 500 with the error's
    message ("Unknown error" when it is not an Error) and nothing is
    written; when the inventory upsert is accepted and the registry upsert
    rejected, the answer is the same 500 but the catalog rows stay
    written, and no other table is touched. *)
Theorem X24_seed_failure_keeps_earlier_writes :
  forall (B : Type) (w : World) (req : Request B) (st : Store) (e : thrown),
    method req <> "OPTIONS" ->
    let message :=
      match e with
      | ErrorObject msg => msg
      | OtherValue => "Unknown error"
      end in
    (db_error w UpsertInventory = Some e ->
     seed_sample_data w req st
     = ({| status := 500; body := ErrorBody message |}, st)) /\
    (db_error w UpsertInventory = None ->
     db_error w UpsertModel = Some e ->
     exists st',
       seed_sample_data w req st
       = ({| status := 500; body := ErrorBody message |}, st') /\
       inventory_items st'
       = fst (fst (upsert_inventory_rows w inventoryItems
                     (inventory_items st) (next_uuid st))) /\
       model_registry st' = model_registry st /\
       predictions st' = predictions st /\
       prediction_history st' = prediction_history st /\
       alerts_history st' = alerts_history st).
Proof.
  intros B w req st e Hm; cbv zeta; split.
  - intros Hfail. unfold seed_sample_data. rewrite (not_preflight req Hm).
    unfold catch500, bind, orThrow, db_call. rewrite Hfail.
    unfold bind, throw. now destruct e.
  - intros Hok Hfail. unfold seed_sample_data.
    rewrite (not_preflight req Hm).
    unfold catch500. unfold bind at 1.
    rewrite orThrow_db_call by assumption.
    unfold bind at 1. unfold orThrow at 1, bind at 1, db_call at 1.
    rewrite Hfail. unfold throw.
    exists (snd (upsert_inventory w inventoryItems st)).
    split; [now destruct e|].
    unfold upsert_inventory.
    destruct (upsert_inventory_rows _ _ _ _) as [[t n] out].
    now repeat split.
Qed.

Lemma X24_seed_failure_keeps_earlier_writes_witness :
  exists st',
    seed_sample_data (world_rejecting is_UpsertModel)
      (anonymous_request "POST") empty_store
    = ({| status := 500; body := ErrorBody "Unknown error" |}, st') /\
    inventory_items st'
    = fst (fst (upsert_inventory_rows (world_rejecting is_UpsertModel)
                  inventoryItems [] 0)) /\
    model_registry st' = [] /\
    predictions st' = [] /\
    prediction_history st' = [] /\
    alerts_history st' = [].
Proof.
  apply (proj2 (X24_seed_failure_keeps_earlier_writes unit
                  (world_rejecting is_UpsertModel)
                  (anonymous_request "POST") empty_store OtherValue
                  ltac:(discriminate))); reflexivity.
Defined.

(** ** Two notions of low stock *)

(** X25. The handlers do not agree on what low stock is.  An item whose
    stock is at least 20% of a positive minimum but below it gets no alert
    from run-predictions, while the seed counts it among its low-stock
    items and raises an alert for it (critical below half the minimum,
    warning otherwise), as the badge of the inventory page does. *)
Theorem X25_seed_and_run_predictions_disagree_on_low_stock :
  forall (w : World) (item : InventoryItem) (prediction : Prediction)
         (cs mr : R),
    current_stock item = Fin cs ->
    min_required item = Fin mr ->
    0 < mr -> mr * 0.2 <= cs -> cs < mr ->
    generateAlert w item prediction = None /\
    (current_stock item <? min_required item)%js = true /\
    (severity (seed_alert w item) = "critical" <-> cs < mr * 0.5) /\
    (severity (seed_alert w item) = "warning" <-> mr * 0.5 <= cs) /\
    (getStockStatus item = Critical <-> cs < mr * 0.5) /\
    (getStockStatus item = LowStock <-> mr * 0.5 <= cs).
Proof.
  intros w item prediction cs mr Hcs Hmr Hpos Hlow Hhigh.
  pose proof (stockPercentage_fin item cs mr Hcs Hmr Hpos) as Hpct.
  destruct (generateAlert_bands w item prediction _ Hpct) as (_ & _ & Hnone).
  assert (Hcs_eq : cs = cs / mr * mr) by (field; lra).
  assert (Hpct20 : 20 <= cs / mr * 100).
  { destruct (Rle_dec 20 (cs / mr * 100)); [assumption | nra]. }
  split; [now apply Hnone|].
  unfold getStockStatus; cbn [seed_alert severity].
  rewrite Hcs, Hmr. cbn [JS.mul JS.lt].
  rewrite (Rltb_true cs mr) by assumption.
  split; [reflexivity|].
  unfold JS.Rltb. destruct (Rlt_dec cs (mr * 0.5)).
  - repeat split; intros; (lra || discriminate || reflexivity || assumption).
  - repeat split; intros; (lra || discriminate || reflexivity || assumption).
Qed.

Lemma X25_seed_and_run_predictions_disagree_on_low_stock_witness :
  let item := sample_item 180 200 500 8500 8 20 in
  generateAlert sample_world item (predictDemand item) = None /\
  (current_stock item <? min_required item)%js = true /\
  (severity (seed_alert sample_world item) = "critical" <-> 180 < 200 * 0.5) /\
  (severity (seed_alert sample_world item) = "warning" <-> 200 * 0.5 <= 180) /\
  (getStockStatus item = Critical <-> 180 < 200 * 0.5) /\
  (getStockStatus item = LowStock <-> 200 * 0.5 <= 180).
Proof.
  apply (X25_seed_and_run_predictions_disagree_on_low_stock sample_world
           (sample_item 180 200 500 8500 8 20) _ 180 200);
    try reflexivity; lra.
Defined.
